(** * Price-oracle clients (BirdEye, DexScreener): a shallow embedding

    The Python sources [helpers.py], [birdeye.py] and [dexscreener.py] are
    embedded function by function.  Values that come out of
    [response.json()] are untyped JSON trees, exceptions are values of an
    error type, and every network request is appended to a request log that
    is threaded through the client methods. *)

From Stdlib Require Import ZArith NArith PArith List String Ascii Bool Lia SpecFloat.
Import ListNotations.

Local Open Scope string_scope.
Local Open Scope Z_scope.
Set Warnings "-register-all".

(* ================================================================== *)
(** ** Python values *)

(** What [json.loads] builds: [None], [bool], [int], [float], [str], [list]
    and [dict].  A [float] is a binary64 kept as a [spec_float] in canonical
    form; a [dict] is its item list in insertion order (Python dicts iterate
    in that order, and their keys are pairwise different). *)
Inductive json : Type :=
| JNull
| JBool (b : bool)
| JInt (z : Z)
| JFloat (f : spec_float)
| JStr (s : string)
| JList (l : list json)
| JObj (o : list (string * json)).

(** [decimal.Decimal]: a finite number [(-1)^sign * coefficient * 10^exponent],
    an infinity, or a (quiet or signaling) NaN. *)
Inductive PyDecimal : Type :=
| DecFinite (sign : bool) (coefficient : N) (exponent : Z)
| DecInfinity (sign : bool)
| DecNaN (signaling : bool).

(** The argument an exception of this repository is constructed with:
    [InvalidTokens()], [InvalidTokens(address)], [InvalidTokens(invalid_tokens)]. *)
Inductive exn_arg : Type :=
| NoArg
| ArgStr (s : string)
| ArgList (l : list string).

(** Modelled from the spec: the module [custom_exceptions] is imported by both
    clients but is not among the sources; its exception classes are the error
    kinds of the spec's taxonomy.  [ValueError] is Python's own class, raised
    by the clients with a message; [Builtin cls] is an exception raised by the
    interpreter or a library ([TypeError], [KeyError], ...), its message
    abstracted. *)
Inductive exn : Type :=
| NoPositionsError
| InvalidTokens (a : exn_arg)
| InvalidSolanaAddress (address : string)
| DecimalsNotFoundError
| ValueError (message : string)
| Builtin (cls : string).

(** The name of the class an exception is an instance of. *)
Definition exn_class (e : exn) : string :=
  match e with
  | NoPositionsError => "NoPositionsError"
  | InvalidTokens _ => "InvalidTokens"
  | InvalidSolanaAddress _ => "InvalidSolanaAddress"
  | DecimalsNotFoundError => "DecimalsNotFoundError"
  | ValueError _ => "ValueError"
  | Builtin cls => cls
  end.

(** A computation either returns a value or raises. *)
Inductive result (A : Type) : Type :=
| Ok (a : A)
| Raise (e : exn).
Arguments Ok {A} a.
Arguments Raise {A} e.

Definition rbind {A B : Type} (m : result A) (k : A -> result B) : result B :=
  match m with
  | Ok a => k a
  | Raise e => Raise e
  end.

Declare Scope py_scope.
Delimit Scope py_scope with py.
Notation "x <- m ;; k" := (rbind m (fun x => k))
  (at level 61, m at next level, right associativity) : py_scope.

(** [try: body  except ValueError: handler]. *)
Definition try_except_ValueError {A : Type} (body : result A) (handler : result A)
  : result A :=
  match body with
  | Ok a => Ok a
  | Raise e => if (exn_class e =? "ValueError")%string then handler else Raise e
  end.

(** *** dict operations on an item list *)

Fixpoint dict_get {A : Type} (k : string) (d : list (string * A)) : option A :=
  match d with
  | [] => None
  | (k', v) :: d' => if (k =? k')%string then Some v else dict_get k d'
  end.

(** [d[k] = v]: overwrite in place when the key exists, else append. *)
Fixpoint dict_set {A : Type} (k : string) (v : A) (d : list (string * A))
  : list (string * A) :=
  match d with
  | [] => [(k, v)]
  | (k', v') :: d' =>
      if (k =? k')%string then (k, v) :: d' else (k', v') :: dict_set k v d'
  end.

Definition dict_keys {A : Type} (d : list (string * A)) : list string :=
  map fst d.

(** *** operators on JSON values *)

Fixpoint is_infix (needle hay : string) : bool :=
  String.prefix needle hay
  || match hay with
     | EmptyString => false
     | String _ hay' => is_infix needle hay'
     end.

Definition is_JStr (k : string) (j : json) : bool :=
  match j with
  | JStr s => (s =? k)%string
  | _ => false
  end.

(** [j == s] for a [str] [s]. *)
Definition py_eq_str (j : json) (s : string) : bool := is_JStr s j.

(** [bool(j)], as in [if not token_data]. *)
Definition py_truthy (j : json) : bool :=
  match j with
  | JNull => false
  | JBool b => b
  | JInt z => negb (z =? 0)%Z
  | JFloat f =>
      match f with
      | S754_zero _ => false
      | _ => true
      end
  | JStr s =>
      match s with
      | EmptyString => false
      | _ => true
      end
  | JList l =>
      match l with
      | [] => false
      | _ => true
      end
  | JObj o =>
      match o with
      | [] => false
      | _ => true
      end
  end.

(** [k in j] for a [str] [k]. *)
Definition py_contains (k : string) (j : json) : result bool :=
  match j with
  | JObj o =>
      Ok match dict_get k o with
         | Some _ => true
         | None => false
         end
  | JStr s => Ok (is_infix k s)
  | JList l => Ok (existsb (is_JStr k) l)
  | _ => Raise (Builtin "TypeError")
  end.

(** [j[k]] for a [str] [k]. *)
Definition py_getitem (j : json) (k : string) : result json :=
  match j with
  | JObj o =>
      match dict_get k o with
      | Some v => Ok v
      | None => Raise (Builtin "KeyError")
      end
  | _ => Raise (Builtin "TypeError")
  end.

(** [j.get(k, default)]: only a [dict] has the method. *)
Definition py_get (j : json) (k : string) (default : json) : result json :=
  match j with
  | JObj o =>
      Ok match dict_get k o with
         | Some v => v
         | None => default
         end
  | _ => Raise (Builtin "AttributeError")
  end.

(** [j.items()]. *)
Definition py_items (j : json) : result (list (string * json)) :=
  match j with
  | JObj o => Ok o
  | _ => Raise (Builtin "AttributeError")
  end.

(** *** numeric conversions *)

(** [float(z)] for an [int]: round to the nearest binary64, ties to even;
    an [int] too large for a finite float raises [OverflowError]. *)
Definition float_of_int (z : Z) : result spec_float :=
  match binary_normalize 53 1024 z 0 false with
  | S754_infinity _ => Raise (Builtin "OverflowError")
  | f => Ok f
  end.

(** [int(f)] for a [float]: truncation towards zero. *)
Definition int_of_float (f : spec_float) : result Z :=
  match f with
  | S754_zero _ => Ok 0
  | S754_nan => Raise (Builtin "ValueError")
  | S754_infinity _ => Raise (Builtin "OverflowError")
  | S754_finite s m e =>
      let a := Z.shiftl (Z.pos m) e in
      Ok (if s then - a else a)
  end.

(** Number of trailing zero bits. *)
Fixpoint ctz (p : positive) : Z :=
  match p with
  | xO p' => 1 + ctz p'
  | _ => 0
  end.

Definition Decimal_of_int (z : Z) : PyDecimal :=
  DecFinite (z <? 0) (Z.abs_N z) 0.

(** [Decimal(f)] for a [float] is exact: with [abs(f) = n / 2^k] in lowest
    terms, the result has coefficient [n * 5^k] and exponent [-k]. *)
Definition Decimal_of_float (f : spec_float) : PyDecimal :=
  match f with
  | S754_nan => DecNaN false
  | S754_infinity s => DecInfinity s
  | S754_zero s => DecFinite s 0 0
  | S754_finite s m e =>
      if 0 <=? e then DecFinite s (Z.to_N (Z.shiftl (Z.pos m) e)) 0
      else
        let t := Z.min (- e) (ctz m) in
        let k := - e - t in
        DecFinite s (Z.to_N (Z.shiftr (Z.pos m) t * 5 ^ k)) (- k)
  end.

(** [d == 0] for a [Decimal]: numeric, false on a quiet NaN; comparing a
    signaling NaN raises. *)
Definition Decimal_eq_zero (d : PyDecimal) : result bool :=
  match d with
  | DecFinite _ c _ => Ok (c =? 0)%N
  | DecInfinity _ => Ok false
  | DecNaN false => Ok false
  | DecNaN true => Raise (Builtin "InvalidOperation")
  end.

(* ================================================================== *)
(** ** The data contracts, the transport and the environment *)

(** Modelled from the spec: the module [common] (the named tuples [PriceInfo]
    and [TokenOverview]) is not among the sources.  The field names are those
    of the keyword calls in [dexscreener.py]; [symbol] is stored as received. *)
Module PriceInfo.
Record t : Type := make { price : PyDecimal; liquidity : PyDecimal }.
End PriceInfo.

Module TokenOverview.
Record t : Type := make {
  price : PyDecimal;
  symbol : json;
  decimals : Z;
  lastTradeUnixTime : Z;
  liquidity : PyDecimal;
  supply : PyDecimal
}.
End TokenOverview.

(** One call of [requests.get] or [requests.post]. *)
Record Request : Type := {
  req_method : string;
  req_url : string;
  req_headers : list (string * string)
}.

(** A [requests.Response]: [body] is [None] when the payload is not JSON, so
    that [response.json()] raises. *)
Record Response : Type := {
  status_code : Z;
  body : option json
}.

(** What the code takes from outside the repository: the Solana public-key
    parser ([pubkey_parses s] is true when [Pubkey.from_string(s)] returns and
    false when it raises [ValueError]), the constants [SOL_MINT] (module
    [vars.constants]) and [NO_LIQUDITY] (module [custom_exceptions]), Python's
    parsers of numerals in a [str] and of a [Decimal] given as a sequence
    ([None]: the constructor raises), and the remote server. *)
Record Env : Type := {
  pubkey_parses : string -> bool;
  SOL_MINT : string;
  NO_LIQUDITY : string;
  int_of_str : string -> option Z;
  float_of_str : string -> option spec_float;
  Decimal_of_str : string -> option PyDecimal;
  Decimal_of_seq : list json -> option PyDecimal;
  http : Request -> Response
}.

Definition opt_or_raise {A : Type} (o : option A) (cls : string) : result A :=
  match o with
  | Some a => Ok a
  | None => Raise (Builtin cls)
  end.

Section Conversions.
Variable env : Env.

(** [int(j)] *)
Definition py_int (j : json) : result Z :=
  match j with
  | JInt z => Ok z
  | JBool b => Ok (if b then 1 else 0)
  | JFloat f => int_of_float f
  | JStr s => opt_or_raise (int_of_str env s) "ValueError"
  | JNull | JList _ | JObj _ => Raise (Builtin "TypeError")
  end.

(** [float(j)] *)
Definition py_float (j : json) : result spec_float :=
  match j with
  | JInt z => float_of_int z
  | JBool b => float_of_int (if b then 1 else 0)
  | JFloat f => Ok f
  | JStr s => opt_or_raise (float_of_str env s) "ValueError"
  | JNull | JList _ | JObj _ => Raise (Builtin "TypeError")
  end.

(** [Decimal(j)] *)
Definition py_Decimal (j : json) : result PyDecimal :=
  match j with
  | JInt z => Ok (Decimal_of_int z)
  | JBool b => Ok (Decimal_of_int (if b then 1 else 0))
  | JFloat f => Ok (Decimal_of_float f)
  | JStr s => opt_or_raise (Decimal_of_str env s) "InvalidOperation"
  | JList l => opt_or_raise (Decimal_of_seq env l) "ValueError"
  | JNull | JObj _ => Raise (Builtin "TypeError")
  end.

(** [Pubkey.from_string(s)], for its outcome only. *)
Definition Pubkey_from_string (s : string) : result unit :=
  if pubkey_parses env s then Ok tt else Raise (Builtin "ValueError").
End Conversions.

(** [response.json()] *)
Definition Response_json (r : Response) : result json :=
  opt_or_raise (body r) "JSONDecodeError".

(** *** Methods that talk to the network

    A method maps the log of the requests sent so far to its outcome and the
    extended log; the log is kept when the method raises. *)
Definition NetM (A : Type) : Type := list Request -> result A * list Request.

Definition nret {A : Type} (a : A) : NetM A := fun log => (Ok a, log).

Definition nraise {A : Type} (e : exn) : NetM A := fun log => (Raise e, log).

Definition nlift {A : Type} (r : result A) : NetM A := fun log => (r, log).

Definition nbind {A B : Type} (m : NetM A) (k : A -> NetM B) : NetM B :=
  fun log =>
    match m log with
    | (Ok a, log') => k a log'
    | (Raise e, log') => (Raise e, log')
    end.

Declare Scope net_scope.
Delimit Scope net_scope with net.
Notation "x <- m ;; k" := (nbind m (fun x => k))
  (at level 61, m at next level, right associativity) : net_scope.
Notation "m ;;; k" := (nbind m (fun _ => k))
  (at level 61, right associativity) : net_scope.

(** Sending a request: the server answers, the request is logged.  The
    server of an environment answers a request by its content alone, so that
    within one run a repeated request gets the same answer, and the transport
    itself does not raise. *)
Definition send (env : Env) (rq : Request) : NetM Response :=
  fun log => (Ok (http env rq), (log ++ [rq])%list).

(** [requests.get(url, headers=headers)] and [requests.post(...)] *)
Definition requests_get (env : Env) (url : string) (headers : list (string * string))
  : NetM Response :=
  send env {| req_method := "GET"; req_url := url; req_headers := headers |}.

Definition requests_post (env : Env) (url : string) (headers : list (string * string))
  : NetM Response :=
  send env {| req_method := "POST"; req_url := url; req_headers := headers |}.

(** [s.upper()] on ASCII letters, which is all the clients need: the only
    method they pass to [_make_api_call] is the literal [GET].  Python's
    method also maps letters outside ASCII; those are left as they are here. *)
Definition upper_ascii (c : ascii) : ascii :=
  let n := nat_of_ascii c in
  if (97 <=? n)%nat && (n <=? 122)%nat then ascii_of_nat (n - 32) else c.

Fixpoint upper (s : string) : string :=
  match s with
  | EmptyString => EmptyString
  | String c s' => String (upper_ascii c) (upper s')
  end.

(* ================================================================== *)
(** ** helpers.py *)

Section Helpers.
Variable env : Env.

Definition is_solana_address (input_string : string) : result bool :=
  try_except_ValueError
    (_ <- Pubkey_from_string env input_string ;; Ok true)%py
    (Ok false).
End Helpers.

(* ================================================================== *)
(** ** birdeye.py *)

Module Config.
Definition BIRD_EYE_TOKEN : string := "451846c7a9bc440d933652aba468b9e9".
End Config.

Module BirdEyeClient.
Section WithEnv.
Variable env : Env.

Definition _headers : list (string * string) :=
  [ ("accept", "application/json");
    ("x-chain", "solana");
    ("X-API-KEY", Config.BIRD_EYE_TOKEN) ].

Definition dquote : string := String "034"%char EmptyString.

Definition _make_api_call (method query_url : string) : NetM Response :=
  let m := upper method in
  if (m =? "GET")%string then requests_get env query_url _headers
  else if (m =? "POST")%string then requests_post env query_url _headers
  else nraise (ValueError ("Unrecognised method " ++ dquote ++ method ++ dquote
                           ++ " passed for query - " ++ query_url)%string).

Definition prices_url (token_addresses : list string) : string :=
  ("https://public-api.birdeye.so/public/multi_price?include_liquidity=true&list_address="
   ++ String.concat "%2C" token_addresses)%string.

(** The condition ["value" in token_data and "liquidity" in token_data];
    [and] evaluates its right operand only when the left one is true. *)
Definition has_price_fields (token_data : json) : result bool :=
  (c <- py_contains "value" token_data ;;
   if c then py_contains "liquidity" token_data else Ok false)%py.

(** The body of the [for] loop of [fetch_prices], on the two accumulators. *)
Definition fetch_prices_entry
    (token_address : string) (token_data : json)
    (prices : list (string * PriceInfo.t)) (invalid_tokens : list string)
  : result (list (string * PriceInfo.t) * list string) :=
  (c <- has_price_fields token_data ;;
   if c then
     v <- py_getitem token_data "value" ;;
     p <- py_Decimal env v ;;
     l <- py_getitem token_data "liquidity" ;;
     q <- py_Decimal env l ;;
     Ok (dict_set token_address (PriceInfo.make p q) prices, invalid_tokens)
   else
     Ok (prices, (invalid_tokens ++ [token_address])%list))%py.

Fixpoint fetch_prices_loop
    (items : list (string * json))
    (prices : list (string * PriceInfo.t)) (invalid_tokens : list string)
  : result (list (string * PriceInfo.t) * list string) :=
  match items with
  | [] => Ok (prices, invalid_tokens)
  | (token_address, token_data) :: rest =>
      (acc <- fetch_prices_entry token_address token_data prices invalid_tokens ;;
       fetch_prices_loop rest (fst acc) (snd acc))%py
  end.

(** The branch of [fetch_prices] taken on status 200. *)
Definition prices_of_response (response : Response)
  : result (list (string * PriceInfo.t)) :=
  (data <- Response_json response ;;
   d <- py_getitem data "data" ;;
   items <- py_items d ;;
   acc <- fetch_prices_loop items [] [] ;;
   match snd acc with
   | [] => Ok (fst acc)
   | _ :: _ => Raise (InvalidTokens (ArgList (snd acc)))
   end)%py.

Definition fetch_prices (token_addresses : list string)
  : NetM (list (string * PriceInfo.t)) :=
  match token_addresses with
  | [] => nraise NoPositionsError
  | _ :: _ =>
      (response <- _make_api_call "GET" (prices_url token_addresses) ;;
       if status_code response =? 200 then nlift (prices_of_response response)
       else nraise (InvalidTokens NoArg))%net
  end.

Definition overview_url (address : string) : string :=
  ("https://public-api.birdeye.so/public/multi_price?include_liquidity=true&include_decimals=true&list_address="
   ++ address)%string.

(** The six extractions of [fetch_token_overview], in source order, each
    with its default. *)
Definition extract_overview_fields (token_data : json)
  : result (PyDecimal * json * Z * Z * PyDecimal * PyDecimal) :=
  (v <- py_get token_data "value" (JInt 0) ;;
   price <- py_Decimal env v ;;
   symbol <- py_get token_data "symbol" (JStr "") ;;
   d <- py_get token_data "decimals" (JInt 0) ;;
   decimals <- py_int env d ;;
   t <- py_get token_data "lastTradeUnixTime" (JInt 0) ;;
   last_trade_unix_time <- py_int env t ;;
   l <- py_get token_data "liquidity" (JInt 0) ;;
   liquidity <- py_Decimal env l ;;
   s <- py_get token_data "supply" (JInt 0) ;;
   supply <- py_Decimal env s ;;
   Ok (price, symbol, decimals, last_trade_unix_time, liquidity, supply))%py.

(** The two checks after the extraction, and the construction. *)
Definition validate_overview
    (fields : PyDecimal * json * Z * Z * PyDecimal * PyDecimal)
  : result TokenOverview.t :=
  let '(price, symbol, decimals, last_trade_unix_time, liquidity, supply) := fields in
  if decimals =? 0 then Raise DecimalsNotFoundError
  else
    (z <- Decimal_eq_zero liquidity ;;
     if z then Raise (ValueError (NO_LIQUDITY env))
     else Ok (TokenOverview.make price symbol decimals last_trade_unix_time
                liquidity supply))%py.

(** The branch of [fetch_token_overview] taken on status 200. *)
Definition overview_of_response (address : string) (response : Response)
  : result TokenOverview.t :=
  (j <- Response_json response ;;
   data <- py_getitem j "data" ;;
   token_data <- py_get data address (JObj []) ;;
   if negb (py_truthy token_data) then Raise (InvalidTokens (ArgStr address))
   else
     fields <- extract_overview_fields token_data ;;
     validate_overview fields)%py.

Definition fetch_token_overview (address : string) : NetM TokenOverview.t :=
  (valid <- nlift (is_solana_address env address) ;;
   if negb valid then nraise (InvalidSolanaAddress address)
   else
     response <- _make_api_call "GET" (overview_url address) ;;
     if status_code response =? 200
     then nlift (overview_of_response address response)
     else nraise (InvalidTokens NoArg))%net.
End WithEnv.
End BirdEyeClient.

(* ================================================================== *)
(** ** dexscreener.py *)

Module DexScreenerClient.
Section WithEnv.
Variable env : Env.

Definition _validate_token_address (token_address : string) : result unit :=
  match token_address with
  | EmptyString => Raise NoPositionsError
  | String _ _ =>
      try_except_ValueError
        (_ <- is_solana_address env token_address ;; Ok tt)%py
        (Raise (InvalidSolanaAddress token_address))
  end.

Fixpoint validate_each (token_addresses : list string) : result unit :=
  match token_addresses with
  | [] => Ok tt
  | address :: rest =>
      (_ <- _validate_token_address address ;; validate_each rest)%py
  end.

Definition _validate_token_addresses (token_addresses : list string) : result unit :=
  match token_addresses with
  | [] => Raise NoPositionsError
  | _ :: _ => validate_each token_addresses
  end.

Definition _validate_response (resp : Response) : result unit :=
  if negb (status_code resp =? 200) then Raise (InvalidTokens NoArg) else Ok tt.

Definition _call_api (token_address : string) : NetM json :=
  match token_address with
  | EmptyString => nraise NoPositionsError
  | String _ _ =>
      (valid <- nlift (is_solana_address env token_address) ;;
       if negb valid then nraise (InvalidSolanaAddress token_address)
       else
         response <- requests_get env
           ("https://api.dexscreener.com/latest/dex/tokens/:" ++ token_address ++ ",")%string
           [] ;;
         nlift (_validate_response response) ;;;
         nlift (Response_json response))%net
  end.

(** The validation loop of [_call_api_bulk]. *)
Fixpoint check_each (token_addresses : list string) : result unit :=
  match token_addresses with
  | [] => Ok tt
  | address :: rest =>
      (valid <- is_solana_address env address ;;
       if negb valid then Raise (InvalidSolanaAddress address)
       else check_each rest)%py
  end.

Definition _call_api_bulk (token_addresses : list string) : NetM json :=
  match token_addresses with
  | [] => nraise NoPositionsError
  | _ :: _ =>
      (nlift (check_each token_addresses) ;;;
       response <- requests_get env
         ("https://api.dexscreener.com/token/"
          ++ String.concat "," token_addresses)%string [] ;;
       nlift (_validate_response response) ;;;
       nlift (Response_json response))%net
  end.

Definition token_url (address : string) : string :=
  ("https://api.dexscreener.com/token/" ++ address)%string.

(** What [fetch_prices_dex] reads from one payload. *)
Definition price_info_of_payload (data : json) : result PriceInfo.t :=
  (p <- py_get data "price" (JInt 0) ;;
   price <- py_Decimal env p ;;
   l <- py_get data "liquidity" (JInt 0) ;;
   liquidity <- py_Decimal env l ;;
   Ok (PriceInfo.make price liquidity))%py.

(** The body of the [for] loop of [fetch_prices_dex]. *)
Definition fetch_prices_dex_entry
    (address : string) (prices : list (string * PriceInfo.t))
  : NetM (list (string * PriceInfo.t)) :=
  (valid <- nlift (is_solana_address env address) ;;
   if negb valid then nraise (InvalidSolanaAddress address)
   else
     response <- requests_get env (token_url address) [] ;;
     nlift (_validate_response response) ;;;
     data <- nlift (Response_json response) ;;
     info <- nlift (price_info_of_payload data) ;;
     nret (dict_set address info prices))%net.

Fixpoint fetch_prices_dex_loop
    (token_addresses : list string) (prices : list (string * PriceInfo.t))
  : NetM (list (string * PriceInfo.t)) :=
  match token_addresses with
  | [] => nret prices
  | address :: rest =>
      (prices' <- fetch_prices_dex_entry address prices ;;
       fetch_prices_dex_loop rest prices')%net
  end.

Definition fetch_prices_dex (token_addresses : list string)
  : NetM (list (string * PriceInfo.t)) :=
  match token_addresses with
  | [] => nraise NoPositionsError
  | _ :: _ => fetch_prices_dex_loop token_addresses []
  end.

(** What [fetch_token_overview] reads from the payload: the same six
    extractions as BirdEye's, on other keys, and the construction. *)
Definition overview_of_payload (data : json) : result TokenOverview.t :=
  (p <- py_get data "price" (JInt 0) ;;
   price <- py_Decimal env p ;;
   symbol <- py_get data "symbol" (JStr "") ;;
   d <- py_get data "decimals" (JInt 0) ;;
   decimals <- py_int env d ;;
   t <- py_get data "lastTradeUnixTime" (JInt 0) ;;
   last_trade_unix_time <- py_int env t ;;
   l <- py_get data "liquidity" (JInt 0) ;;
   liquidity <- py_Decimal env l ;;
   s <- py_get data "supply" (JInt 0) ;;
   supply <- py_Decimal env s ;;
   Ok (TokenOverview.make price symbol decimals last_trade_unix_time
         liquidity supply))%py.

Definition fetch_token_overview (address : string) : NetM TokenOverview.t :=
  (valid <- nlift (is_solana_address env address) ;;
   if negb valid then nraise (InvalidSolanaAddress address)
   else
     response <- requests_get env (token_url address) [] ;;
     nlift (_validate_response response) ;;;
     data <- nlift (Response_json response) ;;
     nlift (overview_of_payload data))%net.

(** The filter of [find_largest_pool_with_sol]; the right operand of [and]
    is evaluated only when the base token matches. *)
Definition pool_matches (entry : json) (address : string) : result bool :=
  (b <- py_get entry "baseToken" (JObj []) ;;
   a <- py_get b "address" JNull ;;
   if py_eq_str a address then
     q <- py_getitem entry "quoteToken" ;;
     qa <- py_getitem q "address" ;;
     Ok (py_eq_str qa (SOL_MINT env))
   else Ok false)%py.

(** [float(entry.get("liquidity", {}).get("usd", 0))] *)
Definition pool_liquidity_usd (entry : json) : result spec_float :=
  (l <- py_get entry "liquidity" (JObj []) ;;
   u <- py_get l "usd" (JInt 0) ;;
   py_float env u)%py.

(** The initial [max_liquidity_usd = -1]: an [int], compared exactly with
    the floats, hence the float of the same value. *)
Definition minus_one : spec_float := S754_finite true 4503599627370496 (-52).

(** [a > b] on floats. *)
Definition float_gt (a b : spec_float) : bool := SFltb b a.

(** The body of the [for] loop, on [max_entry] and [max_liquidity_usd]. *)
Definition pool_step (address : string) (entry : json)
    (max_entry : json) (max_liquidity_usd : spec_float)
  : result (json * spec_float) :=
  (m <- pool_matches entry address ;;
   if m then
     liquidity_usd <- pool_liquidity_usd entry ;;
     if float_gt liquidity_usd max_liquidity_usd
     then Ok (entry, liquidity_usd)
     else Ok (max_entry, max_liquidity_usd)
   else Ok (max_entry, max_liquidity_usd))%py.

Fixpoint pool_loop (address : string) (token_pairs : list json)
    (max_entry : json) (max_liquidity_usd : spec_float)
  : result (json * spec_float) :=
  match token_pairs with
  | [] => Ok (max_entry, max_liquidity_usd)
  | entry :: rest =>
      (acc <- pool_step address entry max_entry max_liquidity_usd ;;
       pool_loop address rest (fst acc) (snd acc))%py
  end.

Definition find_largest_pool_with_sol (token_pairs : list json) (address : string)
  : result json :=
  (acc <- pool_loop address token_pairs (JObj []) minus_one ;;
   Ok (fst acc))%py.
End WithEnv.
End DexScreenerClient.

(* ================================================================== *)
(** ** Vocabulary of the statements *)

(** The one request [BirdEyeClient._make_api_call "GET" url] sends. *)
Definition birdeye_request (url : string) : Request :=
  {| req_method := "GET"; req_url := url; req_headers := BirdEyeClient._headers |}.

(** The one request the DexScreener client sends for an address. *)
Definition dex_request (address : string) : Request :=
  {| req_method := "GET";
     req_url := DexScreenerClient.token_url address;
     req_headers := [] |}.

(** An entry of a BirdEye batch that the loop of [fetch_prices] sends to its
    [else] branch: the test for the two fields evaluates to false. *)
Definition offending (token_data : json) : bool :=
  match BirdEyeClient.has_price_fields token_data with
  | Ok false => true
  | _ => false
  end.

Definition offenders (items : list (string * json)) : list string :=
  map fst (filter (fun it => offending (snd it)) items).

(** An entry of the provider's wire shape: an object whose [value] and
    [liquidity], when both are there, are accepted by [Decimal]. *)
Definition wire_entry (env : Env) (token_data : json) : Prop :=
  exists o, token_data = JObj o /\
    forall v l, dict_get "value" o = Some v -> dict_get "liquidity" o = Some l ->
      (exists p, py_Decimal env v = Ok p) /\ (exists q, py_Decimal env l = Ok q).

(** The [PriceInfo] of a complete entry. *)
Definition entry_price_info (env : Env) (token_data : json) : option PriceInfo.t :=
  match token_data with
  | JObj o =>
      match dict_get "value" o, dict_get "liquidity" o with
      | Some v, Some l =>
          match py_Decimal env v, py_Decimal env l with
          | Ok p, Ok q => Some (PriceInfo.make p q)
          | _, _ => None
          end
      | _, _ => None
      end
  | _ => None
  end.

Definition priced_items (env : Env) (items : list (string * json))
  : list (string * PriceInfo.t) :=
  flat_map (fun it => match entry_price_info env (snd it) with
                      | Some info => [(fst it, info)]
                      | None => []
                      end) items.

(** What the DexScreener price loop makes of the server's answer for one
    address, once the address has passed the format check. *)
Definition dex_answer (env : Env) (address : string) : result PriceInfo.t :=
  let response := http env (dex_request address) in
  (_ <- DexScreenerClient._validate_response response ;;
   data <- Response_json response ;;
   DexScreenerClient.price_info_of_payload env data)%py.

(** An address the DexScreener price loop gets through. *)
Definition dex_entry_ok (env : Env) (address : string) : Prop :=
  pubkey_parses env address = true /\ exists info, dex_answer env address = Ok info.

(** A trading-pair record on which every lookup of the pool selector
    succeeds: the filter evaluates, and for a matching pair so does the
    liquidity. *)
Definition pair_readable (env : Env) (address : string) (entry : json) : Prop :=
  exists m, DexScreenerClient.pool_matches env entry address = Ok m /\
    (m = true -> exists f, DexScreenerClient.pool_liquidity_usd env entry = Ok f).

(** The value [o.get(k, default)] hands to the conversion: the field when
    the payload has it, the default otherwise. *)
Definition field_or (o : list (string * json)) (k : string) (default : json) : json :=
  match dict_get k o with
  | Some v => v
  | None => default
  end.

(** What the loop of the pool selector maintains, [l] being the pairs seen
    so far: no matching pair seen has a liquidity above the running maximum;
    and either nothing was selected, or the selected pair is a matching pair
    of [l] with the running maximum as its liquidity, above -1, and no
    matching pair before it reaches that liquidity. *)
Definition pool_invariant (env : Env) (address : string) (l : list json)
    (max_entry : json) (max_liquidity_usd : spec_float) : Prop :=
  (forall c fc, In c l ->
     DexScreenerClient.pool_matches env c address = Ok true ->
     DexScreenerClient.pool_liquidity_usd env c = Ok fc ->
     DexScreenerClient.float_gt fc max_liquidity_usd = false) /\
  ((max_entry = JObj [] /\ max_liquidity_usd = DexScreenerClient.minus_one) \/
   (exists l1 l2,
      l = (l1 ++ max_entry :: l2)%list /\
      DexScreenerClient.pool_matches env max_entry address = Ok true /\
      DexScreenerClient.pool_liquidity_usd env max_entry = Ok max_liquidity_usd /\
      DexScreenerClient.float_gt max_liquidity_usd DexScreenerClient.minus_one = true /\
      forall c fc, In c l1 ->
        DexScreenerClient.pool_matches env c address = Ok true ->
        DexScreenerClient.pool_liquidity_usd env c = Ok fc ->
        SFleb max_liquidity_usd fc = false)).

(** What the pool selector returns on [pairs]: the empty dict when no
    matching pair has a liquidity above -1; otherwise a pair of the sequence
    that passes the filter, with a liquidity above -1, such that no matching
    pair has a greater liquidity and no matching pair before it has one as
    great. *)
Definition pool_selection (env : Env) (address : string) (pairs : list json)
    (r : json) : Prop :=
  (r = JObj [] /\
   forall c fc, In c pairs ->
     DexScreenerClient.pool_matches env c address = Ok true ->
     DexScreenerClient.pool_liquidity_usd env c = Ok fc ->
     DexScreenerClient.float_gt fc DexScreenerClient.minus_one = false) \/
  (exists l1 l2 f,
     pairs = (l1 ++ r :: l2)%list /\
     DexScreenerClient.pool_matches env r address = Ok true /\
     DexScreenerClient.pool_liquidity_usd env r = Ok f /\
     DexScreenerClient.float_gt f DexScreenerClient.minus_one = true /\
     (forall c fc, In c pairs ->
        DexScreenerClient.pool_matches env c address = Ok true ->
        DexScreenerClient.pool_liquidity_usd env c = Ok fc ->
        DexScreenerClient.float_gt fc f = false) /\
     (forall c fc, In c l1 ->
        DexScreenerClient.pool_matches env c address = Ok true ->
        DexScreenerClient.pool_liquidity_usd env c = Ok fc ->
        SFleb f fc = false)).

(** *** Sample data *)

Definition USDC : string := "EPjFWdd5AufqSSqeM2qN1xzybapC8G4wEGGkZwyTDt1v".
Definition WSOL : string := "So11111111111111111111111111111111111111112".
Definition BONK : string := "DezXAZ8z7PnrnRJjz3wXBoRgixCa6xjnB7YaB1pPB263".

(** An environment whose parser accepts the three mints above and whose
    server is given. *)
Definition sample_env (server : Request -> Response) : Env :=
  {| pubkey_parses := fun s => existsb (String.eqb s) [USDC; WSOL; BONK];
     SOL_MINT := WSOL;
     NO_LIQUDITY := "No liquidity";
     int_of_str := fun _ => None;
     float_of_str := fun _ => None;
     Decimal_of_str := fun _ => None;
     Decimal_of_seq := fun _ => None;
     http := server |}.

Definition respond (payload : json) : Request -> Response :=
  fun _ => {| status_code := 200; body := Some payload |}.

Definition pair (base quote : string) (usd : json) : json :=
  JObj [ ("baseToken", JObj [("address", JStr base)]);
         ("quoteToken", JObj [("address", JStr quote)]);
         ("liquidity", JObj [("usd", usd)]) ].

(** The spec's example: liquidities 10 and 50 against SOL, 1000 against
    another quote token. *)
Definition sample_pairs : list json :=
  [ pair USDC WSOL (JInt 10); pair USDC WSOL (JInt 50); pair USDC BONK (JInt 1000) ].

(** A BirdEye batch with one complete entry and two incomplete ones. *)
Definition sample_batch : json :=
  JObj [("data",
     JObj [ (USDC, JObj [("value", JInt 1); ("liquidity", JInt 500)]);
            (BONK, JObj [("value", JInt 7)]);
            (WSOL, JObj [("liquidity", JInt 9)]) ])].

(** *** Which exceptions a computation can raise *)

Definition raises_only {A : Type} (P : exn -> Prop) (r : result A) : Prop :=
  forall e, r = Raise e -> P e.

(** Raised by the interpreter or a library, not by a [raise] of the clients. *)
Definition library_error (e : exn) : Prop :=
  match e with
  | Builtin _ => True
  | _ => False
  end.

(** What the 200 branch of BirdEye's [fetch_token_overview] can raise. *)
Definition bird_overview_error (env : Env) (address : string) (e : exn) : Prop :=
  library_error e \/ e = InvalidTokens (ArgStr address)
  \/ e = DecimalsNotFoundError \/ e = ValueError (NO_LIQUDITY env).

(** The one request [DexScreenerClient._call_api] sends. *)
Definition dex_pairs_request (token_address : string) : Request :=
  {| req_method := "GET";
     req_url := ("https://api.dexscreener.com/latest/dex/tokens/:"
                 ++ token_address ++ ",")%string;
     req_headers := [] |}.

(** The one request [DexScreenerClient._call_api_bulk] sends. *)
Definition dex_bulk_request (token_addresses : list string) : Request :=
  {| req_method := "GET";
     req_url := ("https://api.dexscreener.com/token/"
                 ++ String.concat "," token_addresses)%string;
     req_headers := [] |}.

(** What a DexScreener method makes of an answer: [InvalidTokens()] unless
    the status is 200, then the JSON body. *)
Definition dex_json_of (response : Response) : result json :=
  (_ <- DexScreenerClient._validate_response response ;; Response_json response)%py.

(** What BirdEye's [fetch_prices] can raise. *)
Definition bird_prices_error (e : exn) : Prop :=
  e = NoPositionsError \/ e = InvalidTokens NoArg
  \/ (exists invalid_tokens,
        invalid_tokens <> [] /\ e = InvalidTokens (ArgList invalid_tokens))
  \/ library_error e.

(** What [fetch_prices_dex] can raise on the list [l]. *)
Definition dex_prices_error (env : Env) (l : list string) (e : exn) : Prop :=
  (e = NoPositionsError /\ l = [])
  \/ (exists a, In a l /\ pubkey_parses env a = false /\ e = InvalidSolanaAddress a)
  \/ e = InvalidTokens NoArg
  \/ library_error e.

(** The filter of the pool selector as a test: true when it evaluates to
    true. *)
Definition passes_filter (env : Env) (address : string) (entry : json) : bool :=
  match DexScreenerClient.pool_matches env entry address with
  | Ok true => true
  | _ => false
  end.

(* ================================================================== *)
(** ** Basic facts *)

Lemma rbind_Ok {A B : Type} (m : result A) (k : A -> result B) (a : A) :
  m = Ok a -> rbind m k = k a.
Proof. intros ->. reflexivity. Qed.

Lemma is_solana_address_verdict (env : Env) (s : string) :
  is_solana_address env s = Ok (pubkey_parses env s).
Proof.
  unfold is_solana_address, Pubkey_from_string.
  destruct (pubkey_parses env s); reflexivity.
Qed.

Lemma app_singleton_assoc {A : Type} (l : list A) (x : A) (l' : list A) :
  ((l ++ [x]) ++ l' = l ++ x :: l')%list.
Proof. rewrite <- app_assoc. reflexivity. Qed.

(** C9: for every non-empty string the DexScreener address validator returns
    normally, whatever the parser thinks of the string: the helper it wraps
    in [try] answers with a boolean and never raises, so the handler that
    would raise [InvalidSolanaAddress] is never entered. *)
Theorem validate_token_address_accepts_any_nonempty (env : Env) (s : string) :
  s <> EmptyString ->
  is_solana_address env s = Ok (pubkey_parses env s) /\
  DexScreenerClient._validate_token_address env s = Ok tt.
Proof.
  intros Hne. split; [apply is_solana_address_verdict|].
  destruct s as [|c s']; [congruence|].
  unfold DexScreenerClient._validate_token_address.
  rewrite is_solana_address_verdict. reflexivity.
Qed.

Lemma validate_token_address_accepts_any_nonempty_witness :
  "not-base58!" <> EmptyString /\
  pubkey_parses (sample_env (respond JNull)) "not-base58!" = false /\
  DexScreenerClient._validate_token_address (sample_env (respond JNull)) "not-base58!"
  = Ok tt.
Proof.
  assert (H : "not-base58!" <> EmptyString) by discriminate.
  split; [exact H|]. split; [reflexivity|].
  exact (proj2 (validate_token_address_accepts_any_nonempty
                  (sample_env (respond JNull)) "not-base58!" H)).
Defined.

(** *** Exceptions of the building blocks *)

Lemma raises_only_Ok {A : Type} (P : exn -> Prop) (a : A) : raises_only P (Ok a).
Proof. intros e H. discriminate H. Qed.

Lemma raises_only_Raise {A : Type} (P : exn -> Prop) (e : exn) :
  P e -> raises_only (A := A) P (Raise e).
Proof. intros HP e' H. injection H as <-. exact HP. Qed.

Lemma raises_only_bind {A B : Type} (P : exn -> Prop)
    (m : result A) (k : A -> result B) :
  raises_only P m -> (forall a, raises_only P (k a)) -> raises_only P (rbind m k).
Proof.
  intros Hm Hk e. destruct m as [a|e']; simpl.
  - apply Hk.
  - intros H. injection H as <-. apply Hm. reflexivity.
Qed.

Lemma raises_only_weaken {A : Type} (P Q : exn -> Prop) (r : result A) :
  (forall e, P e -> Q e) -> raises_only P r -> raises_only Q r.
Proof. intros HPQ Hr e He. apply HPQ, Hr, He. Qed.

Lemma opt_or_raise_library {A : Type} (o : option A) (cls : string) :
  raises_only library_error (opt_or_raise o cls).
Proof. destruct o; intros e H; [discriminate H | injection H as <-; exact I]. Qed.

Ltac library_cases :=
  intros e H;
  repeat match type of H with
         | context [match ?x with _ => _ end] => destruct x
         end;
  first [discriminate H | injection H as <-; exact I].

Lemma py_get_library (j : json) (k : string) (d : json) :
  raises_only library_error (py_get j k d).
Proof. unfold py_get. library_cases. Qed.

Lemma py_getitem_library (j : json) (k : string) :
  raises_only library_error (py_getitem j k).
Proof. unfold py_getitem. library_cases. Qed.

Lemma py_contains_library (k : string) (j : json) :
  raises_only library_error (py_contains k j).
Proof. unfold py_contains. library_cases. Qed.

Lemma py_items_library (j : json) : raises_only library_error (py_items j).
Proof. unfold py_items. library_cases. Qed.

Lemma float_of_int_library (z : Z) : raises_only library_error (float_of_int z).
Proof. unfold float_of_int. library_cases. Qed.

Lemma int_of_float_library (f : spec_float) : raises_only library_error (int_of_float f).
Proof. unfold int_of_float. library_cases. Qed.

Lemma py_int_library (env : Env) (j : json) : raises_only library_error (py_int env j).
Proof.
  destruct j; simpl; try library_cases.
  - apply int_of_float_library.
  - apply opt_or_raise_library.
Qed.

Lemma py_float_library (env : Env) (j : json) :
  raises_only library_error (py_float env j).
Proof.
  destruct j; simpl; try apply float_of_int_library; try library_cases.
  apply opt_or_raise_library.
Qed.

Lemma py_Decimal_library (env : Env) (j : json) :
  raises_only library_error (py_Decimal env j).
Proof.
  destruct j; simpl; try apply opt_or_raise_library; library_cases.
Qed.

Lemma Decimal_eq_zero_library (d : PyDecimal) :
  raises_only library_error (Decimal_eq_zero d).
Proof. unfold Decimal_eq_zero. library_cases. Qed.

Lemma Response_json_library (r : Response) :
  raises_only library_error (Response_json r).
Proof. apply opt_or_raise_library. Qed.

Create HintDb raises.

#[local] Hint Resolve raises_only_Ok py_get_library py_getitem_library
  py_contains_library py_items_library py_int_library py_float_library
  py_Decimal_library Decimal_eq_zero_library Response_json_library
  : raises.

(** Splits a chain of binds, leaving what the hint base does not close. *)
Ltac raises_chain :=
  repeat first
    [ apply raises_only_Ok
    | apply raises_only_bind; [ | intro ]
    | solve [ eauto with raises ] ].

(** *** The methods, unfolded on the request log *)

Lemma make_api_call_GET (env : Env) (url : string) (log : list Request) :
  BirdEyeClient._make_api_call env "GET" url log =
  (Ok (http env (birdeye_request url)), (log ++ [birdeye_request url])%list).
Proof. reflexivity. Qed.

Lemma bird_fetch_prices_run (env : Env) (l : list string) (log : list Request) :
  l <> [] ->
  BirdEyeClient.fetch_prices env l log =
  (let r := http env (birdeye_request (BirdEyeClient.prices_url l)) in
   if status_code r =? 200 then BirdEyeClient.prices_of_response env r
   else Raise (InvalidTokens NoArg),
   (log ++ [birdeye_request (BirdEyeClient.prices_url l)])%list).
Proof.
  intros Hne. destruct l as [|a l']; [congruence|].
  unfold BirdEyeClient.fetch_prices, nbind.
  rewrite make_api_call_GET. cbv zeta.
  destruct (status_code _ =? 200); reflexivity.
Qed.

Lemma bird_fetch_token_overview_run (env : Env) (a : string) (log : list Request) :
  BirdEyeClient.fetch_token_overview env a log =
  if pubkey_parses env a then
    (let r := http env (birdeye_request (BirdEyeClient.overview_url a)) in
     if status_code r =? 200 then BirdEyeClient.overview_of_response env a r
     else Raise (InvalidTokens NoArg),
     (log ++ [birdeye_request (BirdEyeClient.overview_url a)])%list)
  else (Raise (InvalidSolanaAddress a), log).
Proof.
  unfold BirdEyeClient.fetch_token_overview, nbind, nlift.
  rewrite is_solana_address_verdict.
  destruct (pubkey_parses env a); [|reflexivity].
  cbn [negb]. rewrite make_api_call_GET. cbv zeta.
  destruct (status_code _ =? 200); reflexivity.
Qed.

Lemma dex_fetch_token_overview_run (env : Env) (a : string) (log : list Request) :
  DexScreenerClient.fetch_token_overview env a log =
  if pubkey_parses env a then
    (let r := http env (dex_request a) in
     (_ <- DexScreenerClient._validate_response r ;;
      data <- Response_json r ;;
      DexScreenerClient.overview_of_payload env data)%py,
     (log ++ [dex_request a])%list)
  else (Raise (InvalidSolanaAddress a), log).
Proof.
  unfold DexScreenerClient.fetch_token_overview, nbind, nlift.
  rewrite is_solana_address_verdict.
  destruct (pubkey_parses env a); [|reflexivity].
  unfold requests_get, send, dex_request. cbv zeta. cbn [negb].
  destruct (DexScreenerClient._validate_response _) as [[]|e]; [|reflexivity].
  cbn [rbind]. destruct (Response_json _) as [data|e]; reflexivity.
Qed.

Lemma dex_entry_run (env : Env) (x : string)
    (prices : list (string * PriceInfo.t)) (log : list Request) :
  DexScreenerClient.fetch_prices_dex_entry env x prices log =
  if pubkey_parses env x then
    (match dex_answer env x with
     | Ok info => Ok (dict_set x info prices)
     | Raise e => Raise e
     end, (log ++ [dex_request x])%list)
  else (Raise (InvalidSolanaAddress x), log).
Proof.
  unfold DexScreenerClient.fetch_prices_dex_entry, nbind, nlift, nret.
  rewrite is_solana_address_verdict.
  destruct (pubkey_parses env x); [|reflexivity].
  unfold requests_get, send, dex_answer, dex_request. cbv zeta. cbn [negb].
  destruct (DexScreenerClient._validate_response _) as [[]|e]; [|reflexivity].
  cbn [rbind]. destruct (Response_json _) as [data|e]; [|reflexivity].
  cbn [rbind]. destruct (DexScreenerClient.price_info_of_payload _ _); reflexivity.
Qed.

Lemma dex_fetch_prices_nonempty (env : Env) (l : list string) :
  l <> [] ->
  DexScreenerClient.fetch_prices_dex env l = DexScreenerClient.fetch_prices_dex_loop env l [].
Proof. destruct l; [congruence | reflexivity]. Qed.

Lemma dex_loop_app (env : Env) (pre rest : list string) :
  forall prices log,
    DexScreenerClient.fetch_prices_dex_loop env (pre ++ rest) prices log =
    nbind (DexScreenerClient.fetch_prices_dex_loop env pre prices)
          (fun p => DexScreenerClient.fetch_prices_dex_loop env rest p) log.
Proof.
  induction pre as [|x pre IH]; intros prices log; [reflexivity|].
  cbn [app DexScreenerClient.fetch_prices_dex_loop]. unfold nbind at 1 2 3.
  destruct (DexScreenerClient.fetch_prices_dex_entry env x prices log) as [[p|e] log'].
  - rewrite IH. reflexivity.
  - reflexivity.
Qed.

Lemma dex_loop_ok (env : Env) (pre : list string) :
  Forall (dex_entry_ok env) pre ->
  forall prices log, exists prices',
    DexScreenerClient.fetch_prices_dex_loop env pre prices log =
    (Ok prices', (log ++ map dex_request pre)%list).
Proof.
  induction 1 as [|x pre [Hp [info Hi]] _ IH]; intros prices log.
  - exists prices. cbn. rewrite app_nil_r. reflexivity.
  - cbn [DexScreenerClient.fetch_prices_dex_loop]. unfold nbind.
    rewrite dex_entry_run, Hp, Hi.
    destruct (IH (dict_set x info prices) (log ++ [dex_request x])%list)
      as [prices' Hl].
    exists prices'. rewrite Hl. cbn [map]. rewrite app_singleton_assoc. reflexivity.
Qed.

(** Whatever happens, the loop sends the requests of a prefix of its list,
    in order. *)
Lemma dex_loop_log_prefix (env : Env) (l : list string) :
  forall prices log, exists n,
    snd (DexScreenerClient.fetch_prices_dex_loop env l prices log) =
    (log ++ map dex_request (firstn n l))%list.
Proof.
  induction l as [|x l IH]; intros prices log.
  - exists 0%nat. cbn. rewrite app_nil_r. reflexivity.
  - cbn [DexScreenerClient.fetch_prices_dex_loop]. unfold nbind.
    rewrite dex_entry_run.
    destruct (pubkey_parses env x).
    + destruct (dex_answer env x) as [info|e].
      * destruct (IH (dict_set x info prices) (log ++ [dex_request x])%list)
          as [n Hn].
        exists (S n). rewrite Hn. cbn [firstn map].
        rewrite app_singleton_assoc. reflexivity.
      * exists 1%nat. reflexivity.
    + exists 0%nat. cbn. rewrite app_nil_r. reflexivity.
Qed.

(** An address the parser rejects makes the loop raise, at that address or
    before it. *)
Lemma dex_loop_invalid_raises (env : Env) (l : list string) (a : string) :
  In a l -> pubkey_parses env a = false ->
  forall prices log, exists e,
    fst (DexScreenerClient.fetch_prices_dex_loop env l prices log) = Raise e.
Proof.
  intros Hin Ha. induction l as [|x l IH]; intros prices log; [destruct Hin|].
  cbn [DexScreenerClient.fetch_prices_dex_loop]. unfold nbind.
  rewrite dex_entry_run.
  destruct (pubkey_parses env x) eqn:Hx.
  - destruct (dex_answer env x) as [info|e]; [|exists e; reflexivity].
    destruct Hin as [->|Hin]; [congruence|].
    apply IH, Hin.
  - eexists. reflexivity.
Qed.

(** *** Exceptions of the response handling *)

Lemma has_price_fields_library (token_data : json) :
  raises_only library_error (BirdEyeClient.has_price_fields token_data).
Proof.
  unfold BirdEyeClient.has_price_fields.
  apply raises_only_bind; [auto with raises|].
  intros []; auto with raises.
Qed.

Lemma bird_entry_library (env : Env) (a : string) (td : json)
    (prices : list (string * PriceInfo.t)) (invalid : list string) :
  raises_only library_error (BirdEyeClient.fetch_prices_entry env a td prices invalid).
Proof.
  unfold BirdEyeClient.fetch_prices_entry.
  apply raises_only_bind; [apply has_price_fields_library|].
  intros []; raises_chain.
Qed.

Lemma bird_loop_library (env : Env) (items : list (string * json)) :
  forall prices invalid,
    raises_only library_error (BirdEyeClient.fetch_prices_loop env items prices invalid).
Proof.
  induction items as [|[a td] items IH]; intros prices invalid; cbn.
  - apply raises_only_Ok.
  - apply raises_only_bind; [apply bird_entry_library|].
    intros acc. apply IH.
Qed.

Lemma prices_of_response_raises (env : Env) (r : Response) :
  raises_only (fun e => library_error e \/ exists l, e = InvalidTokens (ArgList l))
    (BirdEyeClient.prices_of_response env r).
Proof.
  unfold BirdEyeClient.prices_of_response.
  repeat (apply raises_only_bind;
          [ eapply raises_only_weaken;
            [ intros e He; left; exact He
            | first [ apply bird_loop_library | auto with raises ] ]
          | intro ]).
  destruct (snd _) as [|x l'].
  - apply raises_only_Ok.
  - apply raises_only_Raise. right. eexists. reflexivity.
Qed.

Lemma extract_overview_fields_library (env : Env) (td : json) :
  raises_only library_error (BirdEyeClient.extract_overview_fields env td).
Proof. unfold BirdEyeClient.extract_overview_fields. raises_chain. Qed.

Lemma overview_of_response_raises (env : Env) (a : string) (r : Response) :
  raises_only (bird_overview_error env a) (BirdEyeClient.overview_of_response env a r).
Proof.
  unfold BirdEyeClient.overview_of_response, bird_overview_error.
  repeat (apply raises_only_bind;
          [ eapply raises_only_weaken;
            [ intros e He; left; exact He | auto with raises ]
          | intro ]).
  destruct (negb _).
  - apply raises_only_Raise. auto.
  - apply raises_only_bind.
    + eapply raises_only_weaken; [|apply extract_overview_fields_library].
      intros e He; left; exact He.
    + intros [[[[[price symbol] decimals] ltt] liq] supply].
      unfold BirdEyeClient.validate_overview.
      destruct (decimals =? 0).
      * apply raises_only_Raise. auto.
      * apply raises_only_bind.
        -- eapply raises_only_weaken; [|apply Decimal_eq_zero_library].
           intros e He; left; exact He.
        -- intros []; [apply raises_only_Raise; auto | apply raises_only_Ok].
Qed.

Lemma dex_overview_of_payload_library (env : Env) (data : json) :
  raises_only library_error (DexScreenerClient.overview_of_payload env data).
Proof. unfold DexScreenerClient.overview_of_payload. raises_chain. Qed.

Lemma dex_price_info_library (env : Env) (data : json) :
  raises_only library_error (DexScreenerClient.price_info_of_payload env data).
Proof. unfold DexScreenerClient.price_info_of_payload. raises_chain. Qed.

(* ================================================================== *)
(** ** Empty and malformed addresses *)

(** C5, as the code has it: an empty address list makes both batch fetches
    fail with [NoPositionsError] and leaves the request log untouched; the
    empty string given to either [fetch_token_overview] is not special-cased,
    it never yields [NoPositionsError], and it fails with
    [InvalidSolanaAddress] without a request when the parser rejects it. *)
Theorem empty_input_outcomes (env : Env) (log : list Request) :
  BirdEyeClient.fetch_prices env [] log = (Raise NoPositionsError, log) /\
  DexScreenerClient.fetch_prices_dex env [] log = (Raise NoPositionsError, log) /\
  fst (BirdEyeClient.fetch_token_overview env "" log) <> Raise NoPositionsError /\
  fst (DexScreenerClient.fetch_token_overview env "" log) <> Raise NoPositionsError /\
  (pubkey_parses env "" = false ->
   BirdEyeClient.fetch_token_overview env "" log = (Raise (InvalidSolanaAddress ""), log) /\
   DexScreenerClient.fetch_token_overview env "" log
   = (Raise (InvalidSolanaAddress ""), log)).
Proof.
  split; [reflexivity|]. split; [reflexivity|].
  rewrite bird_fetch_token_overview_run, dex_fetch_token_overview_run.
  repeat split.
  - destruct (pubkey_parses env ""); [|discriminate].
    cbv zeta. cbn [fst]. destruct (status_code _ =? 200); [|discriminate].
    intros H. apply overview_of_response_raises in H.
    destruct H as [H|[H|[H|H]]]; solve [destruct H | discriminate H].
  - destruct (pubkey_parses env ""); [|discriminate].
    cbv zeta. cbn [fst]. intros H.
    assert (R : raises_only (fun e => library_error e \/ e = InvalidTokens NoArg)
                  (_ <- DexScreenerClient._validate_response (http env (dex_request "")) ;;
                   data <- Response_json (http env (dex_request "")) ;;
                   DexScreenerClient.overview_of_payload env data)%py).
    { apply raises_only_bind.
      - unfold DexScreenerClient._validate_response.
        destruct (negb _); [apply raises_only_Raise; auto | apply raises_only_Ok].
      - intros _. eapply raises_only_weaken; [intros e He; left; exact He|].
        apply raises_only_bind; [auto with raises|].
        intros data. apply dex_overview_of_payload_library. }
    apply R in H. destruct H as [H|H]; solve [destruct H | discriminate H].
  - rewrite H. reflexivity.
  - rewrite H. reflexivity.
Qed.

Lemma empty_input_outcomes_witness :
  pubkey_parses (sample_env (respond JNull)) "" = false /\
  BirdEyeClient.fetch_token_overview (sample_env (respond JNull)) "" []
  = (Raise (InvalidSolanaAddress ""), []).
Proof.
  assert (H : pubkey_parses (sample_env (respond JNull)) "" = false) by reflexivity.
  split; [exact H|].
  exact (proj1 (proj2 (proj2 (proj2 (proj2
           (empty_input_outcomes (sample_env (respond JNull)) [])))) H)).
Defined.

(** C5 as stated fails: on the empty string BirdEye's [fetch_token_overview]
    raises [InvalidSolanaAddress], not [NoPositionsError]. *)
Lemma empty_string_overview_counterexample :
  BirdEyeClient.fetch_token_overview (sample_env (respond JNull)) "" []
  = (Raise (InvalidSolanaAddress ""), []) /\
  fst (BirdEyeClient.fetch_token_overview (sample_env (respond JNull)) "" [])
  <> Raise NoPositionsError.
Proof. split; [reflexivity | discriminate]. Qed.

Lemma app_cons_not_nil {A : Type} (pre : list A) (a : A) (post : list A) :
  (pre ++ a :: post)%list <> [].
Proof. destruct pre; discriminate. Qed.

(** The loop reaches an address when all the addresses before it went
    through, and stops there when the parser rejects it. *)
Lemma dex_prices_stops_at_invalid (env : Env) (pre : list string) (a : string)
    (post : list string) (log : list Request) :
  Forall (dex_entry_ok env) pre -> pubkey_parses env a = false ->
  DexScreenerClient.fetch_prices_dex env (pre ++ a :: post) log =
  (Raise (InvalidSolanaAddress a), (log ++ map dex_request pre)%list).
Proof.
  intros Hpre Ha.
  rewrite dex_fetch_prices_nonempty by apply app_cons_not_nil.
  rewrite dex_loop_app. unfold nbind at 1.
  destruct (dex_loop_ok env pre Hpre [] log) as [prices' ->].
  cbn [DexScreenerClient.fetch_prices_dex_loop]. unfold nbind.
  rewrite dex_entry_run, Ha. reflexivity.
Qed.

Lemma dex_prices_stops_at_http_failure (env : Env) (pre : list string) (a : string)
    (post : list string) (log : list Request) :
  Forall (dex_entry_ok env) pre -> pubkey_parses env a = true ->
  status_code (http env (dex_request a)) <> 200 ->
  DexScreenerClient.fetch_prices_dex env (pre ++ a :: post) log =
  (Raise (InvalidTokens NoArg), (log ++ map dex_request pre ++ [dex_request a])%list).
Proof.
  intros Hpre Ha Hs.
  rewrite dex_fetch_prices_nonempty by apply app_cons_not_nil.
  rewrite dex_loop_app. unfold nbind at 1.
  destruct (dex_loop_ok env pre Hpre [] log) as [prices' ->].
  cbn [DexScreenerClient.fetch_prices_dex_loop]. unfold nbind.
  rewrite dex_entry_run, Ha.
  unfold dex_answer, DexScreenerClient._validate_response.
  apply Z.eqb_neq in Hs. rewrite Hs. cbn. rewrite app_assoc. reflexivity.
Qed.

(** Whatever the server answers, a list with a rejected address [a] makes
    the loop raise, having sent requests for addresses before [a] only. *)
Lemma dex_loop_never_passes_invalid (env : Env) (a : string) (post : list string) :
  pubkey_parses env a = false ->
  forall pre prices log, exists e n,
    DexScreenerClient.fetch_prices_dex_loop env (pre ++ a :: post) prices log =
    (Raise e, (log ++ map dex_request (firstn n pre))%list).
Proof.
  intros Ha. induction pre as [|x pre IH]; intros prices log.
  - exists (InvalidSolanaAddress a), 0%nat.
    cbn [app DexScreenerClient.fetch_prices_dex_loop]. unfold nbind.
    rewrite dex_entry_run, Ha. cbn. rewrite app_nil_r. reflexivity.
  - cbn [app DexScreenerClient.fetch_prices_dex_loop]. unfold nbind.
    rewrite dex_entry_run.
    destruct (pubkey_parses env x).
    + destruct (dex_answer env x) as [info|e].
      * destruct (IH (dict_set x info prices) (log ++ [dex_request x])%list)
          as [e [n Hn]].
        exists e, (S n). rewrite Hn. cbn [firstn map].
        rewrite app_singleton_assoc. reflexivity.
      * exists e, 1%nat. reflexivity.
    + exists (InvalidSolanaAddress x), 0%nat. cbn. rewrite app_nil_r. reflexivity.
Qed.

(** C4, as the code has it: for a string the parser rejects, both
    [fetch_token_overview] methods fail with [InvalidSolanaAddress] and send
    nothing; [fetch_prices_dex] fails with it once the addresses before it
    have gone through, having sent their requests only; BirdEye's
    [fetch_prices] has no format check: it sends its batched request and
    never raises [InvalidSolanaAddress]. *)
Theorem invalid_address_outcomes (env : Env) (a : string) (log : list Request) :
  pubkey_parses env a = false ->
  BirdEyeClient.fetch_token_overview env a log = (Raise (InvalidSolanaAddress a), log) /\
  DexScreenerClient.fetch_token_overview env a log = (Raise (InvalidSolanaAddress a), log) /\
  (forall pre post, Forall (dex_entry_ok env) pre ->
     DexScreenerClient.fetch_prices_dex env (pre ++ a :: post) log =
     (Raise (InvalidSolanaAddress a), (log ++ map dex_request pre)%list)) /\
  (forall l, In a l ->
     snd (BirdEyeClient.fetch_prices env l log) =
     (log ++ [birdeye_request (BirdEyeClient.prices_url l)])%list /\
     forall x, fst (BirdEyeClient.fetch_prices env l log) <> Raise (InvalidSolanaAddress x)).
Proof.
  intros Ha. repeat split.
  - rewrite bird_fetch_token_overview_run, Ha. reflexivity.
  - rewrite dex_fetch_token_overview_run, Ha. reflexivity.
  - intros pre post Hpre. apply dex_prices_stops_at_invalid; assumption.
  - rewrite bird_fetch_prices_run by (destruct l; [destruct H | discriminate]).
    reflexivity.
  - rewrite bird_fetch_prices_run by (destruct l; [destruct H | discriminate]).
    cbv zeta. cbn [fst]. intros x Hx.
    destruct (status_code _ =? 200); [|discriminate Hx].
    apply prices_of_response_raises in Hx.
    destruct Hx as [Hx|[l' Hx]]; [destruct Hx | discriminate Hx].
Qed.

Lemma invalid_address_outcomes_witness :
  pubkey_parses (sample_env (respond JNull)) "not-base58!" = false /\
  DexScreenerClient.fetch_token_overview (sample_env (respond JNull)) "not-base58!" []
  = (Raise (InvalidSolanaAddress "not-base58!"), []).
Proof.
  assert (H : pubkey_parses (sample_env (respond JNull)) "not-base58!" = false)
    by reflexivity.
  split; [exact H|].
  exact (proj1 (proj2
           (invalid_address_outcomes (sample_env (respond JNull)) "not-base58!" [] H))).
Defined.

(** C4 as stated fails: BirdEye's [fetch_prices] takes a string the parser
    rejects, sends its request and returns a mapping. *)
Lemma bird_fetch_prices_unvalidated_counterexample :
  pubkey_parses (sample_env (respond (JObj [("data", JObj [])]))) "not-base58!" = false /\
  BirdEyeClient.fetch_prices (sample_env (respond (JObj [("data", JObj [])])))
    ["not-base58!"] []
  = (Ok [], [birdeye_request (BirdEyeClient.prices_url ["not-base58!"])]) /\
  BirdEyeClient.fetch_prices (sample_env (respond (JObj [("data", JObj [])])))
    ["not-base58!"] []
  <> (Raise (InvalidSolanaAddress "not-base58!"), []).
Proof. split; [reflexivity|]. split; [reflexivity | discriminate]. Qed.

(* ================================================================== *)
(** ** DexScreener: the price loop *)

(** C8: [fetch_prices_dex] goes through the addresses in order and stops at
    the first failure.  With an address [a] the parser rejects in the list,
    the call raises and sends requests for addresses before [a] only,
    whatever the server answers; when the addresses before [a] have gone
    through, it raises [InvalidSolanaAddress a] after exactly their requests.
    When [a] is well-formed and the server answers it with a status other
    than 200, the call raises [InvalidTokens()] right after the request for
    [a]; no mapping is returned in either case. *)
Theorem fetch_prices_dex_fails_fast (env : Env) (pre : list string) (a : string)
    (post : list string) (log : list Request) :
  (pubkey_parses env a = false ->
   (exists e n,
      DexScreenerClient.fetch_prices_dex env (pre ++ a :: post) log =
      (Raise e, (log ++ map dex_request (firstn n pre))%list)) /\
   (Forall (dex_entry_ok env) pre ->
    DexScreenerClient.fetch_prices_dex env (pre ++ a :: post) log =
    (Raise (InvalidSolanaAddress a), (log ++ map dex_request pre)%list))) /\
  (Forall (dex_entry_ok env) pre -> pubkey_parses env a = true ->
   status_code (http env (dex_request a)) <> 200 ->
   DexScreenerClient.fetch_prices_dex env (pre ++ a :: post) log =
   (Raise (InvalidTokens NoArg),
    (log ++ map dex_request pre ++ [dex_request a])%list)).
Proof.
  split.
  - intros Ha. split.
    + rewrite dex_fetch_prices_nonempty by apply app_cons_not_nil.
      apply dex_loop_never_passes_invalid, Ha.
    + intros Hpre. apply dex_prices_stops_at_invalid; assumption.
  - apply dex_prices_stops_at_http_failure.
Qed.

Lemma fetch_prices_dex_fails_fast_witness :
  DexScreenerClient.fetch_prices_dex
    (sample_env (respond (JObj [("price", JInt 1); ("liquidity", JInt 2)])))
    [USDC; "not-base58!"; BONK] []
  = (Raise (InvalidSolanaAddress "not-base58!"), [dex_request USDC]).
Proof.
  refine (proj2 (proj1 (fetch_prices_dex_fails_fast
            (sample_env (respond (JObj [("price", JInt 1); ("liquidity", JInt 2)])))
            [USDC] "not-base58!" [BONK] []) _) _).
  - reflexivity.
  - constructor; [|constructor].
    split; [reflexivity|]. eexists. reflexivity.
Defined.

(* ================================================================== *)
(** ** The token overviews *)

(** C7: DexScreener's [fetch_token_overview] has no zero checks.  It never
    raises [DecimalsNotFoundError] nor a [ValueError] of the client's own;
    for a well-formed address and a 200 answer whose payload is an object,
    it returns the [TokenOverview] of the converted fields, each absent
    field replaced by its zero or empty default, also when [decimals] or
    [liquidity] comes out as zero; on the empty object every field is the
    default. *)
Theorem dex_overview_is_best_effort (env : Env) (address : string) (log : list Request) :
  (fst (DexScreenerClient.fetch_token_overview env address log)
   <> Raise DecimalsNotFoundError /\
   forall msg, fst (DexScreenerClient.fetch_token_overview env address log)
               <> Raise (ValueError msg)) /\
  (forall o price symbol decimals last_trade liquidity supply,
     pubkey_parses env address = true ->
     status_code (http env (dex_request address)) = 200 ->
     body (http env (dex_request address)) = Some (JObj o) ->
     py_Decimal env (field_or o "price" (JInt 0)) = Ok price ->
     field_or o "symbol" (JStr "") = symbol ->
     py_int env (field_or o "decimals" (JInt 0)) = Ok decimals ->
     py_int env (field_or o "lastTradeUnixTime" (JInt 0)) = Ok last_trade ->
     py_Decimal env (field_or o "liquidity" (JInt 0)) = Ok liquidity ->
     py_Decimal env (field_or o "supply" (JInt 0)) = Ok supply ->
     DexScreenerClient.fetch_token_overview env address log =
     (Ok (TokenOverview.make price symbol decimals last_trade liquidity supply),
      (log ++ [dex_request address])%list)) /\
  (pubkey_parses env address = true ->
   status_code (http env (dex_request address)) = 200 ->
   body (http env (dex_request address)) = Some (JObj []) ->
   DexScreenerClient.fetch_token_overview env address log =
   (Ok (TokenOverview.make (Decimal_of_int 0) (JStr "") 0 0
          (Decimal_of_int 0) (Decimal_of_int 0)),
    (log ++ [dex_request address])%list)).
Proof.
  rewrite dex_fetch_token_overview_run.
  assert (G : forall o price symbol decimals last_trade liquidity supply,
     pubkey_parses env address = true ->
     status_code (http env (dex_request address)) = 200 ->
     body (http env (dex_request address)) = Some (JObj o) ->
     py_Decimal env (field_or o "price" (JInt 0)) = Ok price ->
     field_or o "symbol" (JStr "") = symbol ->
     py_int env (field_or o "decimals" (JInt 0)) = Ok decimals ->
     py_int env (field_or o "lastTradeUnixTime" (JInt 0)) = Ok last_trade ->
     py_Decimal env (field_or o "liquidity" (JInt 0)) = Ok liquidity ->
     py_Decimal env (field_or o "supply" (JInt 0)) = Ok supply ->
     (if pubkey_parses env address then
        (let r := http env (dex_request address) in
         (_ <- DexScreenerClient._validate_response r ;;
          data <- Response_json r ;;
          DexScreenerClient.overview_of_payload env data)%py,
         (log ++ [dex_request address])%list)
      else (Raise (InvalidSolanaAddress address), log)) =
     (Ok (TokenOverview.make price symbol decimals last_trade liquidity supply),
      (log ++ [dex_request address])%list)).
  { intros o price symbol decimals last_trade liquidity supply
      Ha Hs Hb Hp Hsym Hd Ht Hl Hsup.
    rewrite Ha. cbv zeta.
    unfold DexScreenerClient._validate_response, Response_json.
    rewrite Hs, Hb. cbn [Z.eqb Pos.eqb negb rbind opt_or_raise].
    unfold DexScreenerClient.overview_of_payload, py_get.
    fold (field_or o "price" (JInt 0)) (field_or o "symbol" (JStr ""))
         (field_or o "decimals" (JInt 0)) (field_or o "lastTradeUnixTime" (JInt 0))
         (field_or o "liquidity" (JInt 0)) (field_or o "supply" (JInt 0)).
    cbn [rbind]. rewrite Hp. cbn [rbind]. rewrite Hd. cbn [rbind].
    rewrite Ht. cbn [rbind]. rewrite Hl. cbn [rbind]. rewrite Hsup. cbn [rbind].
    rewrite Hsym. reflexivity. }
  split; [|split].
  - assert (R : forall e,
        fst (if pubkey_parses env address then
               (let r := http env (dex_request address) in
                (_ <- DexScreenerClient._validate_response r ;;
                 data <- Response_json r ;;
                 DexScreenerClient.overview_of_payload env data)%py,
                (log ++ [dex_request address])%list)
             else (Raise (InvalidSolanaAddress address), log)) = Raise e ->
        library_error e \/ e = InvalidTokens NoArg \/ e = InvalidSolanaAddress address).
    { intros e. destruct (pubkey_parses env address); cbv zeta; cbn [fst].
      - intros H. revert e H.
        change (raises_only
                  (fun e => library_error e \/ e = InvalidTokens NoArg
                            \/ e = InvalidSolanaAddress address)
                  (_ <- DexScreenerClient._validate_response
                          (http env (dex_request address)) ;;
                   data <- Response_json (http env (dex_request address)) ;;
                   DexScreenerClient.overview_of_payload env data)%py).
        apply raises_only_bind.
        + unfold DexScreenerClient._validate_response.
          destruct (negb _); [apply raises_only_Raise; auto | apply raises_only_Ok].
        + intros _. eapply raises_only_weaken; [intros e He; left; exact He|].
          apply raises_only_bind; [auto with raises|].
          intros data. apply dex_overview_of_payload_library.
      - intros H. injection H as <-. auto. }
    split; [|intros msg]; intros H; apply R in H;
      destruct H as [H|[H|H]]; solve [destruct H | discriminate H].
  - exact G.
  - intros Ha Hs Hb. apply (G []); auto.
Qed.

Lemma dex_overview_is_best_effort_witness :
  DexScreenerClient.fetch_token_overview
    (sample_env (respond (JObj [("price", JInt 3); ("symbol", JStr "USDC")])))
    USDC []
  = (Ok (TokenOverview.make (Decimal_of_int 3) (JStr "USDC") 0 0
           (Decimal_of_int 0) (Decimal_of_int 0)),
     [dex_request USDC]).
Proof.
  refine (proj1 (proj2 (dex_overview_is_best_effort
            (sample_env (respond (JObj [("price", JInt 3); ("symbol", JStr "USDC")])))
            USDC [])) _ _ _ _ _ _ _ _ _ _ _ _ _ _ _ _);
    reflexivity.
Defined.

(** C3, as the code has it: in BirdEye's [fetch_token_overview], once the six
    fields are extracted, [decimals == 0] fails with [DecimalsNotFoundError]
    whatever the other fields are; otherwise [liquidity == 0] fails with
    Python's [ValueError] carrying the constant [NO_LIQUDITY]; otherwise the
    [TokenOverview] of the extracted fields is returned. *)
Theorem bird_overview_validation_order (env : Env) (address : string)
    (log : list Request) (j data token_data : json)
    (price : PyDecimal) (symbol : json) (decimals last_trade : Z)
    (liquidity supply : PyDecimal) :
  pubkey_parses env address = true ->
  status_code (http env (birdeye_request (BirdEyeClient.overview_url address))) = 200 ->
  body (http env (birdeye_request (BirdEyeClient.overview_url address))) = Some j ->
  py_getitem j "data" = Ok data ->
  py_get data address (JObj []) = Ok token_data ->
  py_truthy token_data = true ->
  BirdEyeClient.extract_overview_fields env token_data
  = Ok (price, symbol, decimals, last_trade, liquidity, supply) ->
  (decimals = 0 ->
   fst (BirdEyeClient.fetch_token_overview env address log)
   = Raise DecimalsNotFoundError) /\
  (decimals <> 0 -> Decimal_eq_zero liquidity = Ok true ->
   fst (BirdEyeClient.fetch_token_overview env address log)
   = Raise (ValueError (NO_LIQUDITY env))) /\
  (decimals <> 0 -> Decimal_eq_zero liquidity = Ok false ->
   fst (BirdEyeClient.fetch_token_overview env address log)
   = Ok (TokenOverview.make price symbol decimals last_trade liquidity supply)).
Proof.
  intros Ha Hs Hb Hd Ht Htr Hx.
  rewrite bird_fetch_token_overview_run, Ha. cbv zeta. cbn [fst].
  rewrite Hs. cbn [Z.eqb Pos.eqb].
  unfold BirdEyeClient.overview_of_response, Response_json.
  rewrite Hb. cbn [opt_or_raise rbind]. rewrite Hd. cbn [rbind].
  rewrite Ht. cbn [rbind]. rewrite Htr. cbn [negb]. rewrite Hx. cbn [rbind].
  unfold BirdEyeClient.validate_overview.
  repeat split.
  - intros ->. reflexivity.
  - intros Hn Hz. apply Z.eqb_neq in Hn. rewrite Hn, Hz. reflexivity.
  - intros Hn Hz. apply Z.eqb_neq in Hn. rewrite Hn, Hz. reflexivity.
Qed.

Lemma bird_overview_validation_order_witness :
  fst (BirdEyeClient.fetch_token_overview
         (sample_env (respond (JObj [("data",
            JObj [(USDC, JObj [("value", JInt 2); ("decimals", JInt 5);
                               ("liquidity", JInt 100)])])])))
         USDC [])
  = Ok (TokenOverview.make (Decimal_of_int 2) (JStr "") 5 0
          (Decimal_of_int 100) (Decimal_of_int 0)).
Proof.
  refine (proj2 (proj2 (bird_overview_validation_order
            (sample_env (respond (JObj [("data",
               JObj [(USDC, JObj [("value", JInt 2); ("decimals", JInt 5);
                                  ("liquidity", JInt 100)])])])))
            USDC [] _ _ _ _ _ _ _ _ _ _ _ _ _ _ _ _)) _ _);
    try reflexivity.
  discriminate.
Defined.

(** C3 as stated fails: with [decimals = 5] and [liquidity = 0] the exception
    is an instance of [ValueError], not of a class [NoLiquidityError]. *)
Lemma bird_overview_no_liquidity_counterexample :
  fst (BirdEyeClient.fetch_token_overview
         (sample_env (respond (JObj [("data",
            JObj [(USDC, JObj [("value", JInt 2); ("decimals", JInt 5);
                               ("liquidity", JInt 0)])])])))
         USDC [])
  = Raise (ValueError "No liquidity") /\
  exn_class (ValueError "No liquidity") <> "NoLiquidityError".
Proof. split; [reflexivity | discriminate]. Qed.

(* ================================================================== *)
(** ** BirdEye: the batch of prices *)

Lemma dict_set_fresh {A : Type} (k : string) (v : A) (d : list (string * A)) :
  ~ In k (dict_keys d) -> dict_set k v d = (d ++ [(k, v)])%list.
Proof.
  induction d as [|[k' v'] d IH]; intros Hk; [reflexivity|].
  cbn [dict_set]. destruct (String.eqb_spec k k') as [->|Hne].
  - exfalso. apply Hk. left. reflexivity.
  - cbn [app]. rewrite IH; [reflexivity|].
    intros Hin. apply Hk. right. exact Hin.
Qed.

Lemma dict_get_in_nodup {A : Type} (k : string) (v : A) (d : list (string * A)) :
  NoDup (dict_keys d) -> In (k, v) d -> dict_get k d = Some v.
Proof.
  induction d as [|[k' v'] d IH]; intros Hnd Hin; [destruct Hin|].
  cbn [dict_get]. inversion Hnd as [|? ? Hk' Hnd']; subst.
  destruct Hin as [Heq|Hin].
  - injection Heq as -> ->. rewrite String.eqb_refl. reflexivity.
  - destruct (String.eqb_spec k k') as [->|Hne].
    + exfalso. apply Hk'. apply (in_map fst) in Hin. exact Hin.
    + apply IH; assumption.
Qed.

Lemma has_price_fields_obj (o : list (string * json)) :
  BirdEyeClient.has_price_fields (JObj o) =
  Ok match dict_get "value" o, dict_get "liquidity" o with
     | Some _, Some _ => true
     | _, _ => false
     end.
Proof.
  unfold BirdEyeClient.has_price_fields, py_contains. cbn [rbind].
  destruct (dict_get "value" o), (dict_get "liquidity" o); reflexivity.
Qed.

Lemma offending_obj (o : list (string * json)) :
  offending (JObj o) = true <->
  dict_get "value" o = None \/ dict_get "liquidity" o = None.
Proof.
  unfold offending. rewrite has_price_fields_obj.
  destruct (dict_get "value" o), (dict_get "liquidity" o);
    split; intros H; try reflexivity; try discriminate; auto;
    destruct H; discriminate.
Qed.

(** The loop on an entry of the wire shape. *)
Lemma bird_entry_wire (env : Env) (a : string) (td : json)
    (prices : list (string * PriceInfo.t)) (invalid : list string) :
  wire_entry env td ->
  BirdEyeClient.fetch_prices_entry env a td prices invalid =
  match entry_price_info env td with
  | Some info => Ok (dict_set a info prices, invalid)
  | None => Ok (prices, (invalid ++ [a])%list)
  end
  /\ (offending td = match entry_price_info env td with
                     | Some _ => false
                     | None => true
                     end).
Proof.
  intros [o [-> Hconv]].
  unfold BirdEyeClient.fetch_prices_entry, offending.
  rewrite has_price_fields_obj. cbn [rbind entry_price_info py_getitem].
  destruct (dict_get "value" o) as [v|] eqn:Hv;
    destruct (dict_get "liquidity" o) as [l|] eqn:Hl; try (split; reflexivity).
  destruct (Hconv v l eq_refl eq_refl) as [[p Hp] [q Hq]].
  cbn [rbind]. rewrite Hp. cbn [rbind]. rewrite Hq. split; reflexivity.
Qed.

Lemma bird_loop_wire (env : Env) (items : list (string * json)) :
  Forall (wire_entry env) (map snd items) ->
  forall prices invalid,
    NoDup (dict_keys prices ++ dict_keys items) ->
    BirdEyeClient.fetch_prices_loop env items prices invalid =
    Ok ((prices ++ priced_items env items)%list, (invalid ++ offenders items)%list).
Proof.
  induction items as [|[a td] items IH]; intros Hw prices invalid Hnd.
  - cbn. rewrite !app_nil_r. reflexivity.
  - cbn [map snd] in Hw. inversion Hw as [|? ? Hw1 Hw2]; subst.
    cbn [BirdEyeClient.fetch_prices_loop].
    destruct (bird_entry_wire env a td prices invalid Hw1) as [-> Hoff].
    unfold offenders, priced_items. cbn [filter flat_map snd fst]. rewrite Hoff.
    assert (Hfresh : ~ In a (dict_keys prices)).
    { intros Hin. apply NoDup_remove_2 in Hnd. apply Hnd.
      apply in_or_app. left. exact Hin. }
    assert (Hnd' : NoDup (dict_keys prices ++ dict_keys items)).
    { apply NoDup_remove_1 in Hnd. exact Hnd. }
    destruct (entry_price_info env td) as [info|]; cbn [rbind fst snd].
    + rewrite IH.
      * rewrite dict_set_fresh by exact Hfresh.
        rewrite <- app_assoc. reflexivity.
      * exact Hw2.
      * rewrite dict_set_fresh by exact Hfresh.
        unfold dict_keys. rewrite map_app. cbn [map fst].
        rewrite <- app_assoc. exact Hnd.
    + rewrite IH by assumption.
      cbn [map fst app]. rewrite <- app_assoc. reflexivity.
Qed.

(** Whatever the entries are, a loop that completes has collected exactly
    the offending addresses, in order. *)
Lemma bird_loop_collects (env : Env) (items : list (string * json)) :
  forall prices invalid prices' invalid',
    BirdEyeClient.fetch_prices_loop env items prices invalid = Ok (prices', invalid') ->
    invalid' = (invalid ++ offenders items)%list.
Proof.
  induction items as [|[a td] items IH]; intros prices invalid prices' invalid' H.
  - cbn in H. injection H as _ <-. cbn. rewrite app_nil_r. reflexivity.
  - cbn [BirdEyeClient.fetch_prices_loop] in H.
    unfold BirdEyeClient.fetch_prices_entry in H.
    unfold offenders. cbn [filter snd]. unfold offending at 1.
    destruct (BirdEyeClient.has_price_fields td) as [[|]|e]; cbn [rbind] in H.
    + destruct (py_getitem td "value") as [v|e]; [|discriminate H].
      cbn [rbind] in H. destruct (py_Decimal env v) as [p|e]; [|discriminate H].
      cbn [rbind] in H. destruct (py_getitem td "liquidity") as [l|e]; [|discriminate H].
      cbn [rbind] in H. destruct (py_Decimal env l) as [q|e]; [|discriminate H].
      cbn [rbind fst snd] in H. apply IH in H. exact H.
    + cbn [fst snd] in H. apply IH in H. rewrite H.
      cbn [map fst]. rewrite <- app_assoc. reflexivity.
    + discriminate H.
Qed.

Lemma priced_items_complete (env : Env) (items : list (string * json)) :
  Forall (wire_entry env) (map snd items) -> offenders items = [] ->
  dict_keys (priced_items env items) = dict_keys items /\
  forall a td, In (a, td) items ->
    exists info, entry_price_info env td = Some info /\
                 In (a, info) (priced_items env items).
Proof.
  induction items as [|[a td] items IH]; intros Hw Hoff.
  - split; [reflexivity | intros a td []].
  - cbn [map snd] in Hw. inversion Hw as [|? ? Hw1 Hw2]; subst.
    destruct (bird_entry_wire env a td [] [] Hw1) as [_ Hoff1].
    unfold offenders in Hoff. cbn [filter snd] in Hoff. rewrite Hoff1 in Hoff.
    unfold priced_items. cbn [flat_map snd fst].
    destruct (entry_price_info env td) as [info|] eqn:Hinfo; [|discriminate Hoff].
    destruct (IH Hw2 Hoff) as [Hk Hall].
    split.
    + cbn. f_equal. exact Hk.
    + intros a' td' [Heq|Hin].
      * injection Heq as <- <-. exists info. split; [exact Hinfo | left; reflexivity].
      * destruct (Hall a' td' Hin) as [info' [H1 H2]].
        exists info'. split; [exact H1 | right; exact H2].
Qed.

Lemma entry_price_info_obj (env : Env) (o : list (string * json)) (info : PriceInfo.t) :
  entry_price_info env (JObj o) = Some info ->
  exists v l p q,
    dict_get "value" o = Some v /\ dict_get "liquidity" o = Some l /\
    py_Decimal env v = Ok p /\ py_Decimal env l = Ok q /\
    info = PriceInfo.make p q.
Proof.
  cbn [entry_price_info].
  destruct (dict_get "value" o) as [v|]; [|discriminate].
  destruct (dict_get "liquidity" o) as [l|]; [|discriminate].
  destruct (py_Decimal env v) as [p|] eqn:Hp; [|discriminate].
  destruct (py_Decimal env l) as [q|] eqn:Hq; [|discriminate].
  intros H. injection H as <-. exists v, l, p, q. repeat split; assumption.
Qed.

(** The 200 branch of [fetch_prices] on a batch of the wire shape. *)
Lemma prices_of_response_wire (env : Env) (r : Response) (data : json)
    (entries : list (string * json)) :
  body r = Some data -> py_getitem data "data" = Ok (JObj entries) ->
  NoDup (dict_keys entries) -> Forall (wire_entry env) (map snd entries) ->
  BirdEyeClient.prices_of_response env r =
  match offenders entries with
  | [] => Ok (priced_items env entries)
  | _ :: _ => Raise (InvalidTokens (ArgList (offenders entries)))
  end.
Proof.
  intros Hb Hd Hnd Hw.
  unfold BirdEyeClient.prices_of_response, Response_json.
  rewrite Hb. cbn [opt_or_raise rbind]. rewrite Hd. cbn [rbind py_items].
  rewrite (bird_loop_wire env entries Hw [] []) by exact Hnd.
  cbn [rbind fst snd app]. reflexivity.
Qed.

(** C1: BirdEye's [fetch_prices] is all-or-nothing.  On a 200 answer whose
    [data] object has entries of the wire shape: the offending addresses are
    those whose entry lacks [value] or [liquidity]; when there is none, the
    result maps every address of the response to the [PriceInfo] holding the
    [Decimal] of its [value] and of its [liquidity]; when there is one, the
    call fails with [InvalidTokens] carrying exactly the offending addresses,
    in the order of the response, and returns no mapping. *)
Theorem bird_fetch_prices_all_or_nothing (env : Env) (token_addresses : list string)
    (log : list Request) (data : json) (entries : list (string * json)) :
  token_addresses <> [] ->
  status_code (http env (birdeye_request (BirdEyeClient.prices_url token_addresses)))
  = 200 ->
  body (http env (birdeye_request (BirdEyeClient.prices_url token_addresses)))
  = Some data ->
  py_getitem data "data" = Ok (JObj entries) ->
  NoDup (dict_keys entries) ->
  Forall (wire_entry env) (map snd entries) ->
  (forall a, In a (offenders entries) <->
     exists o, In (a, JObj o) entries /\
       (dict_get "value" o = None \/ dict_get "liquidity" o = None)) /\
  (offenders entries = [] ->
   exists prices,
     BirdEyeClient.fetch_prices env token_addresses log =
     (Ok prices,
      (log ++ [birdeye_request (BirdEyeClient.prices_url token_addresses)])%list) /\
     dict_keys prices = dict_keys entries /\
     forall a o, In (a, JObj o) entries ->
       exists v l p q,
         dict_get "value" o = Some v /\ dict_get "liquidity" o = Some l /\
         py_Decimal env v = Ok p /\ py_Decimal env l = Ok q /\
         dict_get a prices = Some (PriceInfo.make p q)) /\
  (offenders entries <> [] ->
   BirdEyeClient.fetch_prices env token_addresses log =
   (Raise (InvalidTokens (ArgList (offenders entries))),
    (log ++ [birdeye_request (BirdEyeClient.prices_url token_addresses)])%list)).
Proof.
  intros Hne Hs Hb Hd Hnd Hw.
  rewrite bird_fetch_prices_run by exact Hne. cbv zeta.
  rewrite Hs. cbn [Z.eqb Pos.eqb].
  rewrite (prices_of_response_wire env _ data entries Hb Hd Hnd Hw).
  split; [|split].
  - intros a. unfold offenders. rewrite in_map_iff. split.
    + intros [[a' td] [Ha Hin]]. cbn [fst] in Ha. subst a'.
      apply filter_In in Hin. destruct Hin as [Hin Hoff]. cbn [snd] in Hoff.
      rewrite Forall_forall in Hw.
      destruct (Hw td) as [o [-> _]]; [apply (in_map snd) in Hin; exact Hin|].
      exists o. split; [exact Hin | apply offending_obj, Hoff].
    + intros [o [Hin Hmiss]]. exists (a, JObj o). split; [reflexivity|].
      apply filter_In. split; [exact Hin | apply offending_obj, Hmiss].
  - intros Hoff. rewrite Hoff. exists (priced_items env entries).
    destruct (priced_items_complete env entries Hw Hoff) as [Hk Hall].
    split; [reflexivity|]. split; [exact Hk|].
    intros a o Hin. destruct (Hall a (JObj o) Hin) as [info [Hinfo Hp]].
    destruct (entry_price_info_obj env o info Hinfo) as [v [l [p [q [Hv [Hl [Hpv [Hql ->]]]]]]]].
    exists v, l, p, q. repeat (split; [assumption|]).
    apply dict_get_in_nodup; [rewrite Hk; exact Hnd | exact Hp].
  - intros Hoff. destruct (offenders entries); [congruence | reflexivity].
Qed.

Lemma bird_fetch_prices_all_or_nothing_witness :
  BirdEyeClient.fetch_prices (sample_env (respond sample_batch)) [USDC; BONK; WSOL] []
  = (Raise (InvalidTokens (ArgList [BONK; WSOL])),
     [birdeye_request (BirdEyeClient.prices_url [USDC; BONK; WSOL])]).
Proof.
  refine (proj2 (proj2 (bird_fetch_prices_all_or_nothing
            (sample_env (respond sample_batch)) [USDC; BONK; WSOL] []
            sample_batch
            [ (USDC, JObj [("value", JInt 1); ("liquidity", JInt 500)]);
              (BONK, JObj [("value", JInt 7)]);
              (WSOL, JObj [("liquidity", JInt 9)]) ]
            _ _ _ _ _ _)) _).
  - discriminate.
  - reflexivity.
  - reflexivity.
  - reflexivity.
  - repeat constructor; cbn; intuition discriminate.
  - repeat constructor; eexists; (split; [reflexivity|]);
      cbn; intros v l Hv Hl; try discriminate;
      injection Hv as <-; injection Hl as <-; split; eexists; reflexivity.
  - discriminate.
Defined.

(* ================================================================== *)
(** ** A missing price or liquidity field *)

Lemma in_offenders (items : list (string * json)) (a : string) (td : json) :
  In (a, td) items -> offending td = true -> In a (offenders items).
Proof.
  intros Hin Hoff. unfold offenders. apply in_map_iff.
  exists (a, td). split; [reflexivity|].
  apply filter_In. split; assumption.
Qed.

Lemma dex_price_info_obj (env : Env) (o : list (string * json)) :
  DexScreenerClient.price_info_of_payload env (JObj o) =
  (price <- py_Decimal env (field_or o "price" (JInt 0)) ;;
   liquidity <- py_Decimal env (field_or o "liquidity" (JInt 0)) ;;
   Ok (PriceInfo.make price liquidity))%py.
Proof. reflexivity. Qed.

(* ================================================================== *)
(** ** The pool selector *)

(** *** The order of the float comparison

    [SFcompare] orders the floats other than NaN by sign, exponent and
    mantissa; the three facts below hold for every float. *)

Ltac cmp_cases :=
  repeat match goal with
    | H : context [Pos.compare_cont Eq ?x ?y] |- _ =>
        change (Pos.compare_cont Eq x y) with (Pos.compare x y) in *
    | |- context [Pos.compare_cont Eq ?x ?y] =>
        change (Pos.compare_cont Eq x y) with (Pos.compare x y) in *
    end;
  repeat match goal with
    | H : context [Z.compare ?x ?y] |- _ => destruct (Z.compare_spec x y); try subst
    | |- context [Z.compare ?x ?y] => destruct (Z.compare_spec x y); try subst
    | H : context [Pos.compare ?x ?y] |- _ => destruct (Pos.compare_spec x y); try subst
    | |- context [Pos.compare ?x ?y] => destruct (Pos.compare_spec x y); try subst
    end;
  cbn in *; try discriminate; try reflexivity; try lia.

Ltac float_cases a b c :=
  unfold SFltb, SFleb, SFcompare;
  destruct a as [[]|[]| |[] ? ?], b as [[]|[]| |[] ? ?], c as [[]|[]| |[] ? ?];
  cbn; try discriminate; try reflexivity; intros; cmp_cases.

Lemma SFltb_irrefl (a : spec_float) : SFltb a a = false.
Proof.
  unfold SFltb, SFcompare. destruct a as [[]|[]| |[] m e]; cbn; try reflexivity;
    rewrite Z.compare_refl;
    change (Pos.compare_cont Eq m m) with (Pos.compare m m);
    rewrite Pos.compare_refl; reflexivity.
Qed.

Lemma SFltb_trans (a b c : spec_float) :
  SFltb a b = true -> SFltb b c = true -> SFltb a c = true.
Proof. float_cases a b c. Qed.

Lemma SFltb_le_trans (a b c : spec_float) :
  SFltb a b = true -> SFleb b c = true -> SFltb a c = true.
Proof. float_cases a b c. Qed.

(** *** The loop *)

Lemma pool_invariant_init (env : Env) (address : string) :
  pool_invariant env address [] (JObj []) DexScreenerClient.minus_one.
Proof. split; [intros c fc [] | left; split; reflexivity]. Qed.

Lemma pool_step_invariant (env : Env) (address : string) (seen : list json)
    (entry max_entry : json) (max_liquidity_usd : spec_float) :
  pair_readable env address entry ->
  pool_invariant env address seen max_entry max_liquidity_usd ->
  exists max_entry' max_liquidity_usd',
    DexScreenerClient.pool_step env address entry max_entry max_liquidity_usd
    = Ok (max_entry', max_liquidity_usd') /\
    pool_invariant env address (seen ++ [entry]) max_entry' max_liquidity_usd'.
Proof.
  unfold pool_invariant, DexScreenerClient.float_gt.
  intros [mt [Hm Hliq]] [Hmax Hsel].
  unfold DexScreenerClient.pool_step, DexScreenerClient.float_gt.
  rewrite Hm. cbn [rbind].
  assert (Hkeep : forall f,
             (mt = true -> DexScreenerClient.pool_liquidity_usd env entry = Ok f /\
                           SFltb max_liquidity_usd f = false) ->
             pool_invariant env address (seen ++ [entry]) max_entry max_liquidity_usd).
  { unfold pool_invariant, DexScreenerClient.float_gt. intros f Hf. split.
    - intros c fc Hin Hc Hfc. apply in_app_or in Hin. destruct Hin as [Hin|[<-|[]]].
      + apply (Hmax c fc Hin Hc Hfc).
      + assert (mt = true) as Hmt by congruence.
        destruct (Hf Hmt) as [Hf1 Hf2]. congruence.
    - destruct Hsel as [Hsel|[l1 [l2 [Hl Hrest]]]]; [left; exact Hsel|].
      right. exists l1, (l2 ++ [entry])%list. split; [|exact Hrest].
      rewrite Hl, <- app_assoc. reflexivity. }
  destruct mt.
  - destruct (Hliq eq_refl) as [f Hf]. rewrite Hf. cbn [rbind].
    destruct (SFltb max_liquidity_usd f) eqn:Hgt.
    + exists entry, f. split; [reflexivity|].
      split.
      * intros c fc Hin Hc Hfc. apply in_app_or in Hin. destruct Hin as [Hin|[<-|[]]].
        -- destruct (SFltb f fc) eqn:E; [|reflexivity].
           rewrite <- (Hmax c fc Hin Hc Hfc). symmetry.
           apply (SFltb_trans _ f _ Hgt E).
        -- assert (fc = f) by congruence. subst fc. apply SFltb_irrefl.
      * right. exists seen, []. repeat split; try assumption.
        -- destruct Hsel as [[_ ->]|[l1 [l2 [_ [_ [_ [Hgt1 _]]]]]]]; [exact Hgt|].
           apply (SFltb_trans _ max_liquidity_usd _ Hgt1 Hgt).
        -- intros c fc Hin Hc Hfc.
           destruct (SFleb f fc) eqn:E; [|reflexivity].
           rewrite <- (Hmax c fc Hin Hc Hfc). symmetry.
           apply (SFltb_le_trans _ f _ Hgt E).
    + exists max_entry, max_liquidity_usd. split; [reflexivity|].
      apply (Hkeep f). intros _. split; assumption.
  - exists max_entry, max_liquidity_usd. split; [reflexivity|].
    apply (Hkeep DexScreenerClient.minus_one). discriminate.
Qed.

Lemma pool_loop_invariant (env : Env) (address : string) (rest : list json) :
  Forall (pair_readable env address) rest ->
  forall seen max_entry max_liquidity_usd,
    pool_invariant env address seen max_entry max_liquidity_usd ->
    exists max_entry' max_liquidity_usd',
      DexScreenerClient.pool_loop env address rest max_entry max_liquidity_usd
      = Ok (max_entry', max_liquidity_usd') /\
      pool_invariant env address (seen ++ rest) max_entry' max_liquidity_usd'.
Proof.
  induction 1 as [|entry rest Hr _ IH]; intros seen max_entry m Hinv.
  - exists max_entry, m. rewrite app_nil_r. split; [reflexivity | exact Hinv].
  - destruct (pool_step_invariant env address seen entry max_entry m Hr Hinv)
      as [me1 [m1 [Hstep Hinv1]]].
    destruct (IH (seen ++ [entry])%list me1 m1 Hinv1) as [me2 [m2 [Hloop Hinv2]]].
    exists me2, m2. cbn [DexScreenerClient.pool_loop].
    rewrite Hstep. cbn [rbind fst snd]. rewrite Hloop.
    rewrite app_singleton_assoc in Hinv2. split; [reflexivity | exact Hinv2].
Qed.

Lemma pool_matches_empty (env : Env) (address : string) :
  DexScreenerClient.pool_matches env (JObj []) address = Ok false.
Proof. reflexivity. Qed.

Lemma pool_loop_no_match (env : Env) (address : string) (pairs : list json) :
  Forall (fun c => DexScreenerClient.pool_matches env c address = Ok false) pairs ->
  forall max_entry m,
    DexScreenerClient.pool_loop env address pairs max_entry m = Ok (max_entry, m).
Proof.
  induction 1 as [|c pairs Hc _ IH]; intros max_entry m; [reflexivity|].
  cbn [DexScreenerClient.pool_loop]. unfold DexScreenerClient.pool_step.
  rewrite Hc. cbn [rbind fst snd]. apply IH.
Qed.

Lemma pool_selection_holds (env : Env) (pairs : list json) (address : string) :
  Forall (pair_readable env address) pairs ->
  exists r,
    DexScreenerClient.find_largest_pool_with_sol env pairs address = Ok r /\
    pool_selection env address pairs r.
Proof.
  intros Hr.
  destruct (pool_loop_invariant env address pairs Hr [] (JObj [])
              DexScreenerClient.minus_one (pool_invariant_init env address))
    as [r [m [Hloop [Hmax Hsel]]]].
  cbn [app] in Hmax, Hsel.
  exists r. unfold DexScreenerClient.find_largest_pool_with_sol.
  rewrite Hloop. cbn [rbind fst]. split; [reflexivity|].
  destruct Hsel as [[-> ->]|[l1 [l2 [Hl [Hm [Hf [Hgt Hfirst]]]]]]].
  - left. split; [reflexivity | exact Hmax].
  - right. exists l1, l2, m. repeat split; assumption.
Qed.

(** C6, as the code has it.  On pairs whose lookups succeed,
    [find_largest_pool_with_sol] returns either the empty dict, and then no
    matching pair has a liquidity above -1, or a pair of the sequence that
    passes the base-token and quote-token filter, whose liquidity is above
    -1, such that no matching pair has a greater liquidity and no matching
    pair before it has one as great (the first of the maxima).  It returns
    the empty dict when no pair matches.  The function is pure: it takes no
    request log and returns none. *)
Theorem find_largest_pool_with_sol_selects (env : Env) (pairs : list json)
    (address : string) :
  (Forall (pair_readable env address) pairs ->
   exists r,
     DexScreenerClient.find_largest_pool_with_sol env pairs address = Ok r /\
     pool_selection env address pairs r) /\
  (Forall (fun c => DexScreenerClient.pool_matches env c address = Ok false) pairs ->
   DexScreenerClient.find_largest_pool_with_sol env pairs address = Ok (JObj [])).
Proof.
  split.
  - apply pool_selection_holds.
  - intros Hno. unfold DexScreenerClient.find_largest_pool_with_sol.
    rewrite pool_loop_no_match by exact Hno. reflexivity.
Qed.

Lemma find_largest_pool_with_sol_selects_witness :
  exists r,
    DexScreenerClient.find_largest_pool_with_sol (sample_env (respond JNull))
      sample_pairs USDC = Ok r /\
    pool_selection (sample_env (respond JNull)) USDC sample_pairs r.
Proof.
  apply (proj1 (find_largest_pool_with_sol_selects (sample_env (respond JNull))
                  sample_pairs USDC)).
  repeat constructor.
  - exists true. split; [reflexivity|]. intros _. eexists. reflexivity.
  - exists true. split; [reflexivity|]. intros _. eexists. reflexivity.
  - exists false. split; [reflexivity|]. discriminate.
Defined.

(** The spec's three examples, evaluated. *)
Example find_largest_pool_examples :
  DexScreenerClient.find_largest_pool_with_sol (sample_env (respond JNull))
    sample_pairs USDC = Ok (pair USDC WSOL (JInt 50)) /\
  DexScreenerClient.find_largest_pool_with_sol (sample_env (respond JNull))
    [pair USDC BONK (JInt 1000)] USDC = Ok (JObj []) /\
  DexScreenerClient.find_largest_pool_with_sol (sample_env (respond JNull))
    [ JObj [("baseToken", JObj [("address", JStr USDC)]);
            ("quoteToken", JObj [("address", JStr WSOL)]);
            ("liquidity", JObj [("usd", JInt 50)]);
            ("pairAddress", JStr "first")];
      JObj [("baseToken", JObj [("address", JStr USDC)]);
            ("quoteToken", JObj [("address", JStr WSOL)]);
            ("liquidity", JObj [("usd", JInt 50)]);
            ("pairAddress", JStr "second")] ] USDC
  = Ok (JObj [("baseToken", JObj [("address", JStr USDC)]);
              ("quoteToken", JObj [("address", JStr WSOL)]);
              ("liquidity", JObj [("usd", JInt 50)]);
              ("pairAddress", JStr "first")]).
Proof. repeat split; vm_compute; reflexivity. Qed.

(** C6 as stated fails: two pairs pass the filter, with liquidities -5 and
    -10; the one of maximum liquidity is not returned, the result is empty. *)
Lemma negative_liquidity_counterexample :
  DexScreenerClient.pool_matches (sample_env (respond JNull))
    (pair USDC WSOL (JInt (-5))) USDC = Ok true /\
  DexScreenerClient.pool_matches (sample_env (respond JNull))
    (pair USDC WSOL (JInt (-10))) USDC = Ok true /\
  DexScreenerClient.find_largest_pool_with_sol (sample_env (respond JNull))
    [pair USDC WSOL (JInt (-5)); pair USDC WSOL (JInt (-10))] USDC
  = Ok (JObj []) /\
  DexScreenerClient.find_largest_pool_with_sol (sample_env (respond JNull))
    [pair USDC WSOL (JInt (-5)); pair USDC WSOL (JInt (-10))] USDC
  <> Ok (pair USDC WSOL (JInt (-5))).
Proof. repeat split; try (vm_compute; reflexivity). vm_compute. discriminate. Qed.

Lemma in_middle {A : Type} (l1 l2 : list A) (x : A) : In x (l1 ++ x :: l2)%list.
Proof. apply in_or_app. right. left. reflexivity. Qed.

(** C10, as the code has it.  A liquidity that is absent, or whose [usd] is
    absent or zero, is read as a float zero, and zero is above the initial
    maximum -1; so on pairs whose lookups succeed, as soon as one matching
    pair has a liquidity above -1 (zero included) the result is a matching
    pair of the sequence and not the empty dict.  The empty dict is returned
    only when no matching pair has a liquidity above -1. *)
Theorem zero_liquidity_pool_is_selected (env : Env) (pairs : list json)
    (address : string) :
  (forall o, dict_get "liquidity" o = None ->
     DexScreenerClient.pool_liquidity_usd env (JObj o) = Ok (S754_zero false)) /\
  (forall o l, dict_get "liquidity" o = Some (JObj l) ->
     dict_get "usd" l = None \/ dict_get "usd" l = Some (JInt 0) ->
     DexScreenerClient.pool_liquidity_usd env (JObj o) = Ok (S754_zero false)) /\
  (forall s, DexScreenerClient.float_gt (S754_zero s) DexScreenerClient.minus_one = true) /\
  (Forall (pair_readable env address) pairs ->
   (forall e f, In e pairs ->
      DexScreenerClient.pool_matches env e address = Ok true ->
      DexScreenerClient.pool_liquidity_usd env e = Ok f ->
      DexScreenerClient.float_gt f DexScreenerClient.minus_one = true ->
      exists r,
        DexScreenerClient.find_largest_pool_with_sol env pairs address = Ok r /\
        r <> JObj [] /\ In r pairs /\
        DexScreenerClient.pool_matches env r address = Ok true) /\
   (DexScreenerClient.find_largest_pool_with_sol env pairs address = Ok (JObj []) ->
    forall c fc, In c pairs ->
      DexScreenerClient.pool_matches env c address = Ok true ->
      DexScreenerClient.pool_liquidity_usd env c = Ok fc ->
      DexScreenerClient.float_gt fc DexScreenerClient.minus_one = false)).
Proof.
  split; [|split; [|split]].
  - intros o Ho. unfold DexScreenerClient.pool_liquidity_usd, py_get.
    rewrite Ho. reflexivity.
  - intros o l Ho Hl. unfold DexScreenerClient.pool_liquidity_usd, py_get.
    rewrite Ho. cbn [rbind]. destruct Hl as [-> | ->]; reflexivity.
  - intros []; reflexivity.
  - intros Hr. destruct (pool_selection_holds env pairs address Hr) as [r [Hfind Hsel]].
    split.
    + intros e f Hin Hm Hf Hgt. exists r. split; [exact Hfind|].
      destruct Hsel as [[_ Hnone]|[l1 [l2 [m [Hl [Hmr _]]]]]].
      * rewrite (Hnone e f Hin Hm Hf) in Hgt. discriminate Hgt.
      * repeat split.
        -- intros ->. rewrite pool_matches_empty in Hmr. discriminate Hmr.
        -- rewrite Hl. apply in_middle.
        -- exact Hmr.
    + intros Hempty. rewrite Hfind in Hempty. injection Hempty as ->.
      destruct Hsel as [[_ Hnone]|[l1 [l2 [m [_ [Hmr _]]]]]]; [exact Hnone|].
      rewrite pool_matches_empty in Hmr. discriminate Hmr.
Qed.

Lemma zero_liquidity_pool_is_selected_witness :
  exists r,
    DexScreenerClient.find_largest_pool_with_sol (sample_env (respond JNull))
      [ JObj [("baseToken", JObj [("address", JStr USDC)]);
              ("quoteToken", JObj [("address", JStr WSOL)])] ] USDC = Ok r /\
    r <> JObj [] /\
    In r [ JObj [("baseToken", JObj [("address", JStr USDC)]);
                 ("quoteToken", JObj [("address", JStr WSOL)])] ] /\
    DexScreenerClient.pool_matches (sample_env (respond JNull)) r USDC = Ok true.
Proof.
  refine (proj1 (proj2 (proj2 (proj2 (zero_liquidity_pool_is_selected
            (sample_env (respond JNull))
            [ JObj [("baseToken", JObj [("address", JStr USDC)]);
                    ("quoteToken", JObj [("address", JStr WSOL)])] ] USDC))) _)
            (JObj [("baseToken", JObj [("address", JStr USDC)]);
                   ("quoteToken", JObj [("address", JStr WSOL)])])
            (S754_zero false) _ _ _ _).
  - repeat constructor. exists true. split; [reflexivity|].
    intros _. eexists. reflexivity.
  - left. reflexivity.
  - reflexivity.
  - reflexivity.
  - reflexivity.
Defined.

(** C10 as stated fails: a pair passes the filter with a liquidity of -1,
    which is not above the initial maximum, and the result is empty. *)
Lemma sentinel_liquidity_counterexample :
  DexScreenerClient.pool_matches (sample_env (respond JNull))
    (pair USDC WSOL (JInt (-1))) USDC = Ok true /\
  DexScreenerClient.find_largest_pool_with_sol (sample_env (respond JNull))
    [pair USDC WSOL (JInt (-1))] USDC = Ok (JObj []).
Proof. split; vm_compute; reflexivity. Qed.

(* ================================================================== *)
(** ** BirdEye: the transport wrapper and the batch, further properties *)

(** X3: for a non-empty address list [fetch_prices] sends exactly one
    request, whatever the number of addresses and whatever happens next, to
    the multi-price URL with the addresses joined by [%2C]; on a status other
    than 200 it fails with [InvalidTokens()] without reading the body. *)
Theorem bird_fetch_prices_single_request (env : Env) (l : list string)
    (log : list Request) :
  l <> [] ->
  snd (BirdEyeClient.fetch_prices env l log)
  = (log ++ [birdeye_request (BirdEyeClient.prices_url l)])%list /\
  req_url (birdeye_request (BirdEyeClient.prices_url l))
  = ("https://public-api.birdeye.so/public/multi_price?include_liquidity=true&list_address="
     ++ String.concat "%2C" l)%string /\
  (status_code (http env (birdeye_request (BirdEyeClient.prices_url l))) <> 200 ->
   fst (BirdEyeClient.fetch_prices env l log) = Raise (InvalidTokens NoArg)).
Proof.
  intros Hne. rewrite bird_fetch_prices_run by exact Hne. cbv zeta.
  split; [reflexivity|]. split; [reflexivity|].
  intros Hs. apply Z.eqb_neq in Hs. cbn [fst]. rewrite Hs. reflexivity.
Qed.

Lemma bird_fetch_prices_single_request_witness :
  snd (BirdEyeClient.fetch_prices (sample_env (respond JNull)) [USDC; BONK] [])
  = [birdeye_request (BirdEyeClient.prices_url [USDC; BONK])].
Proof.
  refine (proj1 (bird_fetch_prices_single_request (sample_env (respond JNull))
                   [USDC; BONK] [] _)).
  discriminate.
Defined.

(** X4: the outcome of [fetch_prices] is decided by the server's answer
    alone: the requested addresses are never compared with the addresses of
    the response, so two non-empty requests that receive the same answer have
    the same outcome. *)
Theorem bird_fetch_prices_ignores_requested (env : Env) (l1 l2 : list string)
    (log1 log2 : list Request) :
  l1 <> [] -> l2 <> [] ->
  http env (birdeye_request (BirdEyeClient.prices_url l1))
  = http env (birdeye_request (BirdEyeClient.prices_url l2)) ->
  fst (BirdEyeClient.fetch_prices env l1 log1)
  = fst (BirdEyeClient.fetch_prices env l2 log2).
Proof.
  intros H1 H2 Heq. rewrite !bird_fetch_prices_run by assumption.
  cbv zeta. cbn [fst]. rewrite Heq. reflexivity.
Qed.

Lemma bird_fetch_prices_ignores_requested_witness :
  fst (BirdEyeClient.fetch_prices (sample_env (respond sample_batch)) [USDC] [])
  = fst (BirdEyeClient.fetch_prices (sample_env (respond sample_batch))
           [BONK; WSOL] []).
Proof.
  apply (bird_fetch_prices_ignores_requested (sample_env (respond sample_batch))
           [USDC] [BONK; WSOL] [] []); [discriminate | discriminate | reflexivity].
Defined.

(** X5: a 200 answer that is not of the expected shape makes [fetch_prices]
    fail with the interpreter's error: no JSON body, [JSONDecodeError]; an
    object without the key [data], [KeyError]; a [data] that is not an
    object, [AttributeError]. *)
Theorem bird_fetch_prices_malformed_payload (env : Env) (l : list string)
    (log : list Request) :
  l <> [] ->
  status_code (http env (birdeye_request (BirdEyeClient.prices_url l))) = 200 ->
  (body (http env (birdeye_request (BirdEyeClient.prices_url l))) = None ->
   fst (BirdEyeClient.fetch_prices env l log) = Raise (Builtin "JSONDecodeError")) /\
  (forall o,
     body (http env (birdeye_request (BirdEyeClient.prices_url l))) = Some (JObj o) ->
     dict_get "data" o = None ->
     fst (BirdEyeClient.fetch_prices env l log) = Raise (Builtin "KeyError")) /\
  (forall o d,
     body (http env (birdeye_request (BirdEyeClient.prices_url l))) = Some (JObj o) ->
     dict_get "data" o = Some d -> (forall items, d <> JObj items) ->
     fst (BirdEyeClient.fetch_prices env l log) = Raise (Builtin "AttributeError")).
Proof.
  intros Hne Hs. rewrite bird_fetch_prices_run by exact Hne. cbv zeta. cbn [fst].
  rewrite Hs. cbn [Z.eqb Pos.eqb].
  unfold BirdEyeClient.prices_of_response, Response_json.
  split; [|split].
  - intros ->. reflexivity.
  - intros o -> Hd. cbn [opt_or_raise rbind py_getitem]. rewrite Hd. reflexivity.
  - intros o d -> Hd Hno. cbn [opt_or_raise rbind py_getitem]. rewrite Hd.
    cbn [rbind]. destruct d; try reflexivity.
    exfalso. apply (Hno o0). reflexivity.
Qed.

Lemma bird_fetch_prices_malformed_payload_witness :
  fst (BirdEyeClient.fetch_prices (sample_env (respond (JObj [("success", JBool true)])))
         [USDC] [])
  = Raise (Builtin "KeyError").
Proof.
  refine (proj1 (proj2 (bird_fetch_prices_malformed_payload
            (sample_env (respond (JObj [("success", JBool true)]))) [USDC] [] _ _))
            [("success", JBool true)] _ _).
  - discriminate.
  - reflexivity.
  - reflexivity.
  - reflexivity.
Defined.

Lemma rbind_Ok_inv {A B : Type} (m : result A) (k : A -> result B) (b : B) :
  rbind m k = Ok b -> exists a, m = Ok a /\ k a = Ok b.
Proof.
  destruct m as [a|e]; cbn; intros H; [|discriminate H].
  exists a. split; [reflexivity | exact H].
Qed.

(** Inverts a chain of binds that returned. *)
Ltac bind_inv H :=
  repeat match type of H with
         | rbind _ _ = Ok _ =>
             let a := fresh "a" in
             let Ha := fresh "Ha" in
             apply rbind_Ok_inv in H; destruct H as [a [Ha H]]
         end.

Lemma prices_of_response_errors (env : Env) (r : Response) :
  raises_only
    (fun e => library_error e \/
              exists invalid_tokens,
                invalid_tokens <> [] /\ e = InvalidTokens (ArgList invalid_tokens))
    (BirdEyeClient.prices_of_response env r).
Proof.
  unfold BirdEyeClient.prices_of_response.
  repeat (apply raises_only_bind;
          [ eapply raises_only_weaken;
            [ intros e He; left; exact He
            | first [ apply bird_loop_library | auto with raises ] ]
          | intro ]).
  destruct (snd _) as [|x l'] eqn:E.
  - apply raises_only_Ok.
  - apply raises_only_Raise. right. exists (x :: l').
    split; [discriminate | reflexivity].
Qed.

(** X6: whatever the input and the server, [fetch_prices] raises nothing but
    [NoPositionsError] (and then the list was empty), [InvalidTokens()],
    [InvalidTokens] with a non-empty address list, or an error of the
    interpreter; in particular never [InvalidSolanaAddress]. *)
Theorem bird_fetch_prices_raises (env : Env) (l : list string) (log : list Request)
    (e : exn) :
  fst (BirdEyeClient.fetch_prices env l log) = Raise e ->
  bird_prices_error e /\ (e = NoPositionsError -> l = []) /\
  (forall a, e <> InvalidSolanaAddress a).
Proof.
  destruct l as [|a l'].
  - cbn. intros H. injection H as <-.
    split; [left; reflexivity|]. split; [reflexivity | discriminate].
  - rewrite bird_fetch_prices_run by discriminate. cbv zeta. cbn [fst].
    destruct (status_code _ =? 200).
    + intros H. apply prices_of_response_errors in H.
      destruct H as [H|[inv [Hne ->]]].
      * split; [right; right; right; exact H|].
        split; [intros -> | intros a0 ->]; cbn in H; destruct H.
      * split; [right; right; left; exists inv; split; [exact Hne | reflexivity]|].
        split; [discriminate|]. intros; discriminate.
    + intros H. injection H as <-.
      split; [right; left; reflexivity|]. split; [discriminate|]. intros; discriminate.
Qed.

Lemma bird_fetch_prices_raises_witness :
  bird_prices_error (InvalidTokens (ArgList [BONK; WSOL])).
Proof.
  refine (proj1 (bird_fetch_prices_raises (sample_env (respond sample_batch))
                   [USDC; BONK; WSOL] [] (InvalidTokens (ArgList [BONK; WSOL])) _)).
  reflexivity.
Defined.

(* ================================================================== *)
(** ** BirdEye: the overview, further properties *)

Lemma validate_overview_Ok (env : Env)
    (fields : PyDecimal * json * Z * Z * PyDecimal * PyDecimal)
    (ov : TokenOverview.t) :
  BirdEyeClient.validate_overview env fields = Ok ov ->
  TokenOverview.decimals ov <> 0 /\
  Decimal_eq_zero (TokenOverview.liquidity ov) = Ok false.
Proof.
  destruct fields as [[[[[price symbol] decimals] ltt] liq] supply].
  unfold BirdEyeClient.validate_overview.
  destruct (decimals =? 0) eqn:Hd; [discriminate|].
  destruct (Decimal_eq_zero liq) as [[|]|e] eqn:Hz; cbn [rbind]; try discriminate.
  intros H. injection H as <-. cbn. split; [|exact Hz].
  apply Z.eqb_neq, Hd.
Qed.

(** X7: an overview that BirdEye's [fetch_token_overview] returns always has
    a non-zero [decimals] and a [liquidity] that does not compare equal to
    zero; and it is returned for an address the parser accepts only, after a
    200 answer. *)
Theorem bird_overview_returned_is_validated (env : Env) (address : string)
    (log : list Request) (ov : TokenOverview.t) :
  fst (BirdEyeClient.fetch_token_overview env address log) = Ok ov ->
  pubkey_parses env address = true /\
  status_code (http env (birdeye_request (BirdEyeClient.overview_url address))) = 200 /\
  TokenOverview.decimals ov <> 0 /\
  Decimal_eq_zero (TokenOverview.liquidity ov) = Ok false.
Proof.
  rewrite bird_fetch_token_overview_run.
  destruct (pubkey_parses env address); [|discriminate].
  cbv zeta. cbn [fst].
  destruct (status_code _ =? 200) eqn:Hs; [|discriminate].
  intros H. split; [reflexivity|]. split; [apply Z.eqb_eq, Hs|].
  unfold BirdEyeClient.overview_of_response in H. bind_inv H.
  destruct (negb (py_truthy _)); [discriminate H|]. bind_inv H.
  apply (validate_overview_Ok env _ ov H).
Qed.

Lemma bird_overview_returned_is_validated_witness :
  TokenOverview.decimals
    (TokenOverview.make (Decimal_of_int 2) (JStr "") 5 0
       (Decimal_of_int 100) (Decimal_of_int 0)) <> 0.
Proof.
  refine (proj1 (proj2 (proj2 (bird_overview_returned_is_validated
            (sample_env (respond (JObj [("data",
               JObj [(USDC, JObj [("value", JInt 2); ("decimals", JInt 5);
                                  ("liquidity", JInt 100)])])])))
            USDC [] _ _)))).
  reflexivity.
Defined.

(** X8: for an accepted address and a 200 answer, an entry that is missing
    from [data], or is there but empty (falsy), makes [fetch_token_overview]
    fail with [InvalidTokens] carrying the address. *)
Theorem bird_overview_missing_entry (env : Env) (address : string)
    (log : list Request) (j : json) (entries : list (string * json)) :
  pubkey_parses env address = true ->
  status_code (http env (birdeye_request (BirdEyeClient.overview_url address))) = 200 ->
  body (http env (birdeye_request (BirdEyeClient.overview_url address))) = Some j ->
  py_getitem j "data" = Ok (JObj entries) ->
  (dict_get address entries = None \/
   exists token_data, dict_get address entries = Some token_data /\
                      py_truthy token_data = false) ->
  BirdEyeClient.fetch_token_overview env address log =
  (Raise (InvalidTokens (ArgStr address)),
   (log ++ [birdeye_request (BirdEyeClient.overview_url address)])%list).
Proof.
  intros Ha Hs Hb Hd Hmiss.
  rewrite bird_fetch_token_overview_run, Ha. cbv zeta. rewrite Hs.
  cbn [Z.eqb Pos.eqb].
  unfold BirdEyeClient.overview_of_response, Response_json.
  rewrite Hb. cbn [opt_or_raise rbind]. rewrite Hd. cbn [rbind py_get].
  destruct Hmiss as [-> | [td [-> Htd]]].
  - reflexivity.
  - rewrite Htd. reflexivity.
Qed.

Lemma bird_overview_missing_entry_witness :
  BirdEyeClient.fetch_token_overview
    (sample_env (respond (JObj [("data", JObj [(BONK, JObj [("value", JInt 1)])])])))
    USDC []
  = (Raise (InvalidTokens (ArgStr USDC)),
     [birdeye_request (BirdEyeClient.overview_url USDC)]).
Proof.
  apply (bird_overview_missing_entry
           (sample_env (respond (JObj [("data", JObj [(BONK, JObj [("value", JInt 1)])])])))
           USDC [] (JObj [("data", JObj [(BONK, JObj [("value", JInt 1)])])])
           [(BONK, JObj [("value", JInt 1)])]);
    try reflexivity.
  left. reflexivity.
Defined.

(** X9: for an address the parser accepts, BirdEye's [fetch_token_overview]
    sends exactly one request, to the multi-price URL of that address with
    decimals included; on a status other than 200 it fails with
    [InvalidTokens()] without reading the body. *)
Theorem bird_overview_single_request (env : Env) (address : string)
    (log : list Request) :
  pubkey_parses env address = true ->
  snd (BirdEyeClient.fetch_token_overview env address log)
  = (log ++ [birdeye_request (BirdEyeClient.overview_url address)])%list /\
  (status_code (http env (birdeye_request (BirdEyeClient.overview_url address))) <> 200 ->
   fst (BirdEyeClient.fetch_token_overview env address log)
   = Raise (InvalidTokens NoArg)).
Proof.
  intros Ha. rewrite bird_fetch_token_overview_run, Ha. cbv zeta.
  split; [reflexivity|].
  intros Hs. apply Z.eqb_neq in Hs. cbn [fst]. rewrite Hs. reflexivity.
Qed.

Lemma bird_overview_single_request_witness :
  snd (BirdEyeClient.fetch_token_overview (sample_env (respond JNull)) USDC [])
  = [birdeye_request (BirdEyeClient.overview_url USDC)].
Proof.
  refine (proj1 (bird_overview_single_request (sample_env (respond JNull)) USDC [] _)).
  reflexivity.
Defined.

Lemma bird_overview_after_extraction (env : Env) (address : string)
    (log : list Request) (j data token_data : json)
    (fields : PyDecimal * json * Z * Z * PyDecimal * PyDecimal) :
  pubkey_parses env address = true ->
  status_code (http env (birdeye_request (BirdEyeClient.overview_url address))) = 200 ->
  body (http env (birdeye_request (BirdEyeClient.overview_url address))) = Some j ->
  py_getitem j "data" = Ok data ->
  py_get data address (JObj []) = Ok token_data ->
  py_truthy token_data = true ->
  BirdEyeClient.extract_overview_fields env token_data = Ok fields ->
  fst (BirdEyeClient.fetch_token_overview env address log)
  = BirdEyeClient.validate_overview env fields.
Proof.
  intros Ha Hs Hb Hd Ht Htr Hx.
  rewrite bird_fetch_token_overview_run, Ha. cbv zeta. cbn [fst].
  rewrite Hs. cbn [Z.eqb Pos.eqb].
  unfold BirdEyeClient.overview_of_response, Response_json.
  rewrite Hb. cbn [opt_or_raise rbind]. rewrite Hd. cbn [rbind].
  rewrite Ht. cbn [rbind]. rewrite Htr. cbn [negb]. rewrite Hx. reflexivity.
Qed.

(** X10: the zero checks of BirdEye's overview run on the defaulted values,
    so an absent field is treated as a zero one: when the extraction goes
    through, a payload entry without [decimals] fails with
    [DecimalsNotFoundError], and one with a non-zero [decimals] but without
    [liquidity] fails with [ValueError(NO_LIQUDITY)]. *)
Theorem bird_overview_absent_field_is_zero (env : Env) (address : string)
    (log : list Request) (j data : json) (o : list (string * json))
    (price : PyDecimal) (symbol : json) (decimals last_trade : Z)
    (liquidity supply : PyDecimal) :
  pubkey_parses env address = true ->
  status_code (http env (birdeye_request (BirdEyeClient.overview_url address))) = 200 ->
  body (http env (birdeye_request (BirdEyeClient.overview_url address))) = Some j ->
  py_getitem j "data" = Ok data ->
  py_get data address (JObj []) = Ok (JObj o) ->
  o <> [] ->
  BirdEyeClient.extract_overview_fields env (JObj o)
  = Ok (price, symbol, decimals, last_trade, liquidity, supply) ->
  (dict_get "decimals" o = None ->
   fst (BirdEyeClient.fetch_token_overview env address log)
   = Raise DecimalsNotFoundError) /\
  (decimals <> 0 -> dict_get "liquidity" o = None ->
   fst (BirdEyeClient.fetch_token_overview env address log)
   = Raise (ValueError (NO_LIQUDITY env))).
Proof.
  intros Ha Hs Hb Hd Ht Hne Hx.
  assert (Htr : py_truthy (JObj o) = true) by (destruct o; [congruence | reflexivity]).
  rewrite (bird_overview_after_extraction env address log j data (JObj o) _
             Ha Hs Hb Hd Ht Htr Hx).
  unfold BirdEyeClient.extract_overview_fields in Hx. bind_inv Hx.
  injection Hx as <- <- <- <- <- <-.
  cbn [py_get] in *.
  unfold BirdEyeClient.validate_overview. split.
  - intros Hnone. rewrite Hnone in Ha3. injection Ha3 as <-.
    cbn in Ha4. injection Ha4 as <-. reflexivity.
  - intros Hnz Hnone. rewrite Hnone in Ha7. injection Ha7 as <-.
    cbn in Ha8. injection Ha8 as <-.
    apply Z.eqb_neq in Hnz. rewrite Hnz. reflexivity.
Qed.

Lemma bird_overview_absent_field_is_zero_witness :
  fst (BirdEyeClient.fetch_token_overview
         (sample_env (respond (JObj [("data",
            JObj [(USDC, JObj [("value", JInt 2); ("liquidity", JInt 100)])])])))
         USDC [])
  = Raise DecimalsNotFoundError.
Proof.
  refine (proj1 (bird_overview_absent_field_is_zero
            (sample_env (respond (JObj [("data",
               JObj [(USDC, JObj [("value", JInt 2); ("liquidity", JInt 100)])])])))
            USDC [] _ _ [("value", JInt 2); ("liquidity", JInt 100)]
            _ _ _ _ _ _ _ _ _ _ _ _ _) _);
    try reflexivity.
  discriminate.
Defined.

(** X11: whatever the input and the server, BirdEye's
    [fetch_token_overview] raises nothing but [InvalidSolanaAddress] for its
    address, [InvalidTokens()], [InvalidTokens(address)],
    [DecimalsNotFoundError], [ValueError(NO_LIQUDITY)] or an error of the
    interpreter; in particular never [NoPositionsError]. *)
Theorem bird_overview_raises (env : Env) (address : string) (log : list Request)
    (e : exn) :
  fst (BirdEyeClient.fetch_token_overview env address log) = Raise e ->
  (e = InvalidSolanaAddress address /\ pubkey_parses env address = false) \/
  (pubkey_parses env address = true /\
   (e = InvalidTokens NoArg \/ bird_overview_error env address e)).
Proof.
  rewrite bird_fetch_token_overview_run.
  destruct (pubkey_parses env address).
  - cbv zeta. cbn [fst]. intros H. right. split; [reflexivity|].
    destruct (status_code _ =? 200).
    + right. apply (overview_of_response_raises env address _ e H).
    + injection H as <-. left. reflexivity.
  - cbn [fst]. intros H. injection H as <-. left. split; reflexivity.
Qed.

Lemma bird_overview_raises_witness :
  (InvalidSolanaAddress "not-base58!" = InvalidSolanaAddress "not-base58!" /\
   pubkey_parses (sample_env (respond JNull)) "not-base58!" = false) \/
  (pubkey_parses (sample_env (respond JNull)) "not-base58!" = true /\
   (InvalidSolanaAddress "not-base58!" = InvalidTokens NoArg \/
    bird_overview_error (sample_env (respond JNull)) "not-base58!"
      (InvalidSolanaAddress "not-base58!"))).
Proof.
  apply (bird_overview_raises (sample_env (respond JNull)) "not-base58!" []).
  reflexivity.
Defined.

(* ================================================================== *)
(** ** DexScreener: the validators and the raw calls *)

Lemma validate_token_address_run (env : Env) (a : string) :
  DexScreenerClient._validate_token_address env a =
  if (a =? "")%string then Raise NoPositionsError else Ok tt.
Proof.
  destruct a as [|c a']; [reflexivity|].
  unfold DexScreenerClient._validate_token_address.
  rewrite is_solana_address_verdict. reflexivity.
Qed.

Lemma validate_each_run (env : Env) (l : list string) :
  DexScreenerClient.validate_each env l =
  if existsb (fun a => (a =? "")%string) l then Raise NoPositionsError else Ok tt.
Proof.
  induction l as [|a l IH]; [reflexivity|].
  cbn [DexScreenerClient.validate_each existsb].
  rewrite validate_token_address_run.
  destruct (a =? "")%string; [reflexivity|].
  cbn [rbind orb]. exact IH.
Qed.

(** X12: [_validate_token_addresses] checks emptiness only: it raises
    [NoPositionsError] when the list is empty or holds an empty string, and
    otherwise returns normally, also for addresses the parser rejects; it
    never raises [InvalidSolanaAddress]. *)
Theorem validate_token_addresses_checks_emptiness_only (env : Env) (l : list string) :
  DexScreenerClient._validate_token_addresses env l =
  match l with
  | [] => Raise NoPositionsError
  | _ :: _ =>
      if existsb (fun a => (a =? "")%string) l then Raise NoPositionsError else Ok tt
  end.
Proof.
  destruct l as [|a l']; [reflexivity|].
  unfold DexScreenerClient._validate_token_addresses.
  apply validate_each_run.
Qed.

(** X13: [_call_api] on one address: the empty string fails with
    [NoPositionsError] and a string the parser rejects with
    [InvalidSolanaAddress], both before anything is sent; an accepted address
    sends exactly one request to the token-pairs URL, and the call returns
    the JSON body on status 200 and fails with [InvalidTokens()] on any other
    status. *)
Theorem call_api_outcomes (env : Env) (a : string) (log : list Request) :
  (a = "" ->
   DexScreenerClient._call_api env a log = (Raise NoPositionsError, log)) /\
  (a <> "" -> pubkey_parses env a = false ->
   DexScreenerClient._call_api env a log = (Raise (InvalidSolanaAddress a), log)) /\
  (a <> "" -> pubkey_parses env a = true ->
   snd (DexScreenerClient._call_api env a log) = (log ++ [dex_pairs_request a])%list /\
   (status_code (http env (dex_pairs_request a)) <> 200 ->
    fst (DexScreenerClient._call_api env a log) = Raise (InvalidTokens NoArg)) /\
   (forall j, status_code (http env (dex_pairs_request a)) = 200 ->
      body (http env (dex_pairs_request a)) = Some j ->
      fst (DexScreenerClient._call_api env a log) = Ok j)).
Proof.
  split; [intros ->; reflexivity|].
  assert (Hrun : a <> "" ->
     DexScreenerClient._call_api env a log =
     if pubkey_parses env a then
       (dex_json_of (http env (dex_pairs_request a)),
        (log ++ [dex_pairs_request a])%list)
     else (Raise (InvalidSolanaAddress a), log)).
  { intros Hne. destruct a as [|c a']; [congruence|].
    unfold DexScreenerClient._call_api, nbind, nlift.
    rewrite is_solana_address_verdict.
    destruct (pubkey_parses env (String c a')); [|reflexivity].
    cbn [negb]. unfold requests_get, send, dex_json_of.
    fold (dex_pairs_request (String c a')).
    destruct (DexScreenerClient._validate_response _) as [[]|e]; reflexivity. }
  split.
  - intros Hne Ha. rewrite Hrun, Ha by exact Hne. reflexivity.
  - intros Hne Ha. rewrite Hrun, Ha by exact Hne.
    split; [reflexivity|]. cbn [fst].
    unfold dex_json_of, DexScreenerClient._validate_response, Response_json. split.
    + intros Hs. apply Z.eqb_neq in Hs. rewrite Hs. reflexivity.
    + intros j Hs Hb. rewrite Hs, Hb. reflexivity.
Qed.

Lemma call_api_outcomes_witness :
  fst (DexScreenerClient._call_api
         (sample_env (respond (JObj [("pairs", JList [])]))) USDC [])
  = Ok (JObj [("pairs", JList [])]).
Proof.
  refine (proj2 (proj2 (proj2 (proj2 (call_api_outcomes
            (sample_env (respond (JObj [("pairs", JList [])]))) USDC [])) _ _))
            (JObj [("pairs", JList [])]) _ _).
  - discriminate.
  - reflexivity.
  - reflexivity.
  - reflexivity.
Defined.

Lemma check_each_run (env : Env) (pre : list string) :
  Forall (fun x => pubkey_parses env x = true) pre ->
  forall rest,
    DexScreenerClient.check_each env (pre ++ rest) = DexScreenerClient.check_each env rest.
Proof.
  induction 1 as [|x pre Hx _ IH]; intros rest; [reflexivity|].
  cbn [app DexScreenerClient.check_each].
  rewrite is_solana_address_verdict, Hx. cbn [rbind negb]. apply IH.
Qed.

(** X14: [_call_api_bulk] checks every address before it sends anything: a
    list whose first rejected address is [a] fails with
    [InvalidSolanaAddress a] and the request log is untouched, wherever [a]
    stands in the list. *)
Theorem call_api_bulk_validates_before_sending (env : Env) (pre : list string)
    (a : string) (post : list string) (log : list Request) :
  Forall (fun x => pubkey_parses env x = true) pre ->
  pubkey_parses env a = false ->
  DexScreenerClient._call_api_bulk env (pre ++ a :: post) log =
  (Raise (InvalidSolanaAddress a), log).
Proof.
  intros Hpre Ha.
  assert (Hc : DexScreenerClient.check_each env (pre ++ a :: post)
               = Raise (InvalidSolanaAddress a)).
  { rewrite check_each_run by exact Hpre.
    cbn [DexScreenerClient.check_each].
    rewrite is_solana_address_verdict, Ha. reflexivity. }
  destruct (pre ++ a :: post)%list as [|x l] eqn:E.
  - destruct pre; discriminate E.
  - unfold DexScreenerClient._call_api_bulk, nbind, nlift. rewrite Hc. reflexivity.
Qed.

Lemma call_api_bulk_validates_before_sending_witness :
  DexScreenerClient._call_api_bulk (sample_env (respond JNull))
    [USDC; BONK; "not-base58!"; WSOL] []
  = (Raise (InvalidSolanaAddress "not-base58!"), []).
Proof.
  apply (call_api_bulk_validates_before_sending (sample_env (respond JNull))
           [USDC; BONK] "not-base58!" [WSOL] []).
  - repeat constructor.
  - reflexivity.
Defined.

(** X15: on a non-empty list of accepted addresses [_call_api_bulk] sends
    exactly one request, to the token URL with the addresses joined by
    commas; it returns the JSON body on status 200 and fails with
    [InvalidTokens()] on any other status. *)
Theorem call_api_bulk_single_request (env : Env) (l : list string)
    (log : list Request) :
  l <> [] -> Forall (fun x => pubkey_parses env x = true) l ->
  snd (DexScreenerClient._call_api_bulk env l log) = (log ++ [dex_bulk_request l])%list /\
  req_url (dex_bulk_request l)
  = ("https://api.dexscreener.com/token/" ++ String.concat "," l)%string /\
  (status_code (http env (dex_bulk_request l)) <> 200 ->
   fst (DexScreenerClient._call_api_bulk env l log) = Raise (InvalidTokens NoArg)) /\
  (forall j, status_code (http env (dex_bulk_request l)) = 200 ->
     body (http env (dex_bulk_request l)) = Some j ->
     fst (DexScreenerClient._call_api_bulk env l log) = Ok j).
Proof.
  intros Hne Hall.
  assert (Hc : DexScreenerClient.check_each env l = Ok tt).
  { rewrite <- (app_nil_r l). rewrite check_each_run by exact Hall. reflexivity. }
  assert (Hrun : DexScreenerClient._call_api_bulk env l log =
                 (dex_json_of (http env (dex_bulk_request l)),
                  (log ++ [dex_bulk_request l])%list)).
  { destruct l as [|x l']; [congruence|].
    unfold DexScreenerClient._call_api_bulk, nbind, nlift. rewrite Hc.
    unfold requests_get, send, dex_json_of.
    fold (dex_bulk_request (x :: l')).
    destruct (DexScreenerClient._validate_response _) as [[]|e]; reflexivity. }
  rewrite Hrun. split; [reflexivity|]. split; [reflexivity|]. cbn [fst].
  unfold dex_json_of, DexScreenerClient._validate_response, Response_json. split.
  - intros Hs. apply Z.eqb_neq in Hs. rewrite Hs. reflexivity.
  - intros j Hs Hb. rewrite Hs, Hb. reflexivity.
Qed.

Lemma call_api_bulk_single_request_witness :
  snd (DexScreenerClient._call_api_bulk (sample_env (respond JNull)) [USDC; BONK] [])
  = [dex_bulk_request [USDC; BONK]].
Proof.
  refine (proj1 (call_api_bulk_single_request (sample_env (respond JNull))
                   [USDC; BONK] [] _ _)).
  - discriminate.
  - repeat constructor.
Defined.

(* ================================================================== *)
(** ** DexScreener: the price loop and the overview, further properties *)

Lemma dict_get_set {A : Type} (a k : string) (v : A) (d : list (string * A)) :
  dict_get a (dict_set k v d) = if (a =? k)%string then Some v else dict_get a d.
Proof.
  induction d as [|[k' v'] d IH]; cbn [dict_set dict_get].
  - destruct (a =? k)%string; reflexivity.
  - destruct (String.eqb_spec k k') as [->|Hne]; cbn [dict_get].
    + destruct (a =? k')%string; reflexivity.
    + rewrite IH. destruct (String.eqb_spec a k') as [->|Hne'].
      * destruct (String.eqb_spec k' k) as [->|_]; [congruence | reflexivity].
      * reflexivity.
Qed.

Lemma dict_keys_set_in {A : Type} (a k : string) (v : A) (d : list (string * A)) :
  In a (dict_keys (dict_set k v d)) <-> a = k \/ In a (dict_keys d).
Proof.
  induction d as [|[k' v'] d IH]; cbn [dict_set].
  - cbn. intuition.
  - destruct (String.eqb_spec k k') as [->|Hne]; cbn.
    + intuition.
    + cbn in IH. rewrite IH. intuition.
Qed.

Lemma dict_keys_set_nodup {A : Type} (k : string) (v : A) (d : list (string * A)) :
  NoDup (dict_keys d) -> NoDup (dict_keys (dict_set k v d)).
Proof.
  induction d as [|[k' v'] d IH]; intros Hnd; cbn [dict_set].
  - cbn. constructor; [intros [] | constructor].
  - inversion Hnd as [|? ? Hk Hnd']; subst.
    destruct (String.eqb_spec k k') as [->|Hne]; cbn.
    + constructor; assumption.
    + constructor; [|apply IH; exact Hnd'].
      intros Hin. apply dict_keys_set_in in Hin.
      destruct Hin as [->|Hin]; [congruence | apply Hk, Hin].
Qed.

Lemma dict_get_of_key {A : Type} (a : string) (d : list (string * A)) :
  In a (dict_keys d) -> exists v, dict_get a d = Some v.
Proof.
  induction d as [|[k v] d IH]; cbn; [intros []|].
  intros [->|Hin].
  - rewrite String.eqb_refl. eexists. reflexivity.
  - destruct (a =? k)%string; [eexists; reflexivity | apply IH, Hin].
Qed.

(** What the loop of [fetch_prices_dex] keeps of its dict, [seen] being the
    addresses gone through. *)
Lemma dex_loop_success (env : Env) (l : list string) :
  Forall (dex_entry_ok env) l ->
  forall prices log seen,
    NoDup (dict_keys prices) ->
    (forall a, In a (dict_keys prices) <-> In a seen) ->
    (forall a info, dict_get a prices = Some info -> dex_answer env a = Ok info) ->
    exists prices',
      DexScreenerClient.fetch_prices_dex_loop env l prices log =
      (Ok prices', (log ++ map dex_request l)%list) /\
      NoDup (dict_keys prices') /\
      (forall a, In a (dict_keys prices') <-> In a (seen ++ l)%list) /\
      (forall a info, dict_get a prices' = Some info -> dex_answer env a = Ok info).
Proof.
  induction 1 as [|x l [Hp [info Hi]] _ IH]; intros prices log seen Hnd Hkeys Hget.
  - exists prices. cbn. rewrite !app_nil_r. auto.
  - cbn [DexScreenerClient.fetch_prices_dex_loop]. unfold nbind.
    rewrite dex_entry_run, Hp, Hi.
    destruct (IH (dict_set x info prices) (log ++ [dex_request x])%list
                 (seen ++ [x])%list) as [prices' [Hrun [Hnd' [Hkeys' Hget']]]].
    + apply dict_keys_set_nodup, Hnd.
    + intros a. rewrite dict_keys_set_in, Hkeys, in_app_iff. cbn. intuition.
    + intros a i. rewrite dict_get_set.
      destruct (String.eqb_spec a x) as [->|_]; [|apply Hget].
      intros H. injection H as <-. exact Hi.
    + exists prices'. rewrite Hrun. cbn [map].
      rewrite !app_singleton_assoc in *. auto.
Qed.

(** X16: when every address of a non-empty list is accepted by the parser
    and answered with a 200 payload whose price and liquidity convert,
    [fetch_prices_dex] sends one request per address, in list order
    (repeated addresses are requested again), and returns a mapping whose
    keys are exactly the addresses of the list, each once, every address
    mapped to the [PriceInfo] of its answer. *)
Theorem fetch_prices_dex_success (env : Env) (l : list string) (log : list Request) :
  l <> [] -> Forall (dex_entry_ok env) l ->
  exists prices,
    DexScreenerClient.fetch_prices_dex env l log =
    (Ok prices, (log ++ map dex_request l)%list) /\
    NoDup (dict_keys prices) /\
    (forall a, In a (dict_keys prices) <-> In a l) /\
    (forall a, In a l ->
       exists info, dex_answer env a = Ok info /\ dict_get a prices = Some info).
Proof.
  intros Hne Hall. rewrite dex_fetch_prices_nonempty by exact Hne.
  destruct (dex_loop_success env l Hall [] log [])
    as [prices [Hrun [Hnd [Hkeys Hget]]]].
  - constructor.
  - intros a. cbn. tauto.
  - intros a info H. discriminate H.
  - exists prices. split; [exact Hrun|]. split; [exact Hnd|].
    split; [exact Hkeys|].
    intros a Hin. apply Hkeys in Hin.
    destruct (dict_get_of_key a prices Hin) as [info Hinfo].
    exists info. split; [apply Hget, Hinfo | exact Hinfo].
Qed.

Lemma fetch_prices_dex_success_witness :
  exists prices,
    DexScreenerClient.fetch_prices_dex
      (sample_env (respond (JObj [("price", JInt 1); ("liquidity", JInt 2)])))
      [USDC; BONK; USDC] [] =
    (Ok prices, [dex_request USDC; dex_request BONK; dex_request USDC]) /\
    NoDup (dict_keys prices) /\
    (forall a, In a (dict_keys prices) <-> In a [USDC; BONK; USDC]) /\
    (forall a, In a [USDC; BONK; USDC] ->
       exists info,
         dex_answer (sample_env (respond (JObj [("price", JInt 1); ("liquidity", JInt 2)])))
           a = Ok info /\
         dict_get a prices = Some info).
Proof.
  apply (fetch_prices_dex_success
           (sample_env (respond (JObj [("price", JInt 1); ("liquidity", JInt 2)])))
           [USDC; BONK; USDC] []).
  - discriminate.
  - repeat constructor; eexists; reflexivity.
Defined.

Lemma dex_answer_errors (env : Env) (a : string) :
  raises_only (fun e => e = InvalidTokens NoArg \/ library_error e) (dex_answer env a).
Proof.
  unfold dex_answer. cbv zeta. apply raises_only_bind.
  - unfold DexScreenerClient._validate_response.
    destruct (negb _); [apply raises_only_Raise; auto | apply raises_only_Ok].
  - intros _. eapply raises_only_weaken; [intros e He; right; exact He|].
    apply raises_only_bind; [auto with raises|].
    intros data. apply dex_price_info_library.
Qed.

Lemma dex_loop_errors (env : Env) (l : list string) :
  forall prices log e,
    fst (DexScreenerClient.fetch_prices_dex_loop env l prices log) = Raise e ->
    (exists a, In a l /\ pubkey_parses env a = false /\ e = InvalidSolanaAddress a)
    \/ e = InvalidTokens NoArg \/ library_error e.
Proof.
  induction l as [|x l IH]; intros prices log e; [discriminate|].
  cbn [DexScreenerClient.fetch_prices_dex_loop]. unfold nbind.
  rewrite dex_entry_run.
  destruct (pubkey_parses env x) eqn:Hx.
  - destruct (dex_answer env x) as [info|e'] eqn:Hans.
    + intros H. apply IH in H.
      destruct H as [[a [Hin Ha]]|H]; [|right; exact H].
      left. exists a. split; [right; exact Hin | exact Ha].
    + cbn [fst]. intros H. injection H as <-. right.
      apply (dex_answer_errors env x e' Hans).
  - cbn [fst]. intros H. injection H as <-. left.
    exists x. split; [left; reflexivity|]. split; [exact Hx | reflexivity].
Qed.

(** X18: whatever the input and the server, [fetch_prices_dex] raises
    nothing but [NoPositionsError] (on the empty list only),
    [InvalidSolanaAddress] for an address of the list that the parser
    rejects, [InvalidTokens()], or an error of the interpreter. *)
Theorem fetch_prices_dex_raises (env : Env) (l : list string) (log : list Request)
    (e : exn) :
  fst (DexScreenerClient.fetch_prices_dex env l log) = Raise e ->
  dex_prices_error env l e.
Proof.
  unfold dex_prices_error. destruct l as [|x l'].
  - cbn. intros H. injection H as <-. left. split; reflexivity.
  - rewrite dex_fetch_prices_nonempty by discriminate.
    intros H. right. apply (dex_loop_errors env _ _ _ _ H).
Qed.

Lemma fetch_prices_dex_raises_witness :
  dex_prices_error (sample_env (respond JNull)) [USDC] (Builtin "AttributeError").
Proof.
  apply (fetch_prices_dex_raises (sample_env (respond JNull)) [USDC] []).
  reflexivity.
Defined.

(** X19: for an address the parser accepts, DexScreener's
    [fetch_token_overview] sends exactly one request, to the token URL of the
    address; a status other than 200 fails with [InvalidTokens()], and after
    a 200 a body that is not JSON fails with [JSONDecodeError] and a JSON
    payload that is not an object with [AttributeError]. *)
Theorem dex_overview_single_request (env : Env) (address : string)
    (log : list Request) :
  pubkey_parses env address = true ->
  snd (DexScreenerClient.fetch_token_overview env address log)
  = (log ++ [dex_request address])%list /\
  (status_code (http env (dex_request address)) <> 200 ->
   fst (DexScreenerClient.fetch_token_overview env address log)
   = Raise (InvalidTokens NoArg)) /\
  (status_code (http env (dex_request address)) = 200 ->
   (body (http env (dex_request address)) = None ->
    fst (DexScreenerClient.fetch_token_overview env address log)
    = Raise (Builtin "JSONDecodeError")) /\
   (forall data, body (http env (dex_request address)) = Some data ->
      (forall o, data <> JObj o) ->
      fst (DexScreenerClient.fetch_token_overview env address log)
      = Raise (Builtin "AttributeError"))).
Proof.
  intros Ha. rewrite dex_fetch_token_overview_run, Ha. cbv zeta.
  split; [reflexivity|]. cbn [fst].
  unfold DexScreenerClient._validate_response, Response_json. split.
  - intros Hs. apply Z.eqb_neq in Hs. rewrite Hs. reflexivity.
  - intros Hs. rewrite Hs. cbn [Z.eqb Pos.eqb negb rbind]. split.
    + intros ->. reflexivity.
    + intros data -> Hno. cbn [opt_or_raise rbind].
      destruct data; try reflexivity.
      exfalso. apply (Hno o). reflexivity.
Qed.

Lemma dex_overview_single_request_witness :
  fst (DexScreenerClient.fetch_token_overview
         (sample_env (respond (JList []))) USDC [])
  = Raise (Builtin "AttributeError").
Proof.
  refine (proj2 (proj2 (proj2 (dex_overview_single_request
            (sample_env (respond (JList []))) USDC [] _)) _) (JList []) _ _).
  - reflexivity.
  - reflexivity.
  - reflexivity.
  - discriminate.
Defined.

(* ================================================================== *)
(** ** The pool selector, further properties *)

Lemma pool_loop_app (env : Env) (address : string) (pre rest : list json) :
  forall max_entry m,
    DexScreenerClient.pool_loop env address (pre ++ rest) max_entry m =
    (acc <- DexScreenerClient.pool_loop env address pre max_entry m ;;
     DexScreenerClient.pool_loop env address rest (fst acc) (snd acc))%py.
Proof.
  induction pre as [|x pre IH]; intros max_entry m; [reflexivity|].
  cbn [app DexScreenerClient.pool_loop].
  destruct (DexScreenerClient.pool_step env address x max_entry m) as [acc|e];
    cbn [rbind]; [apply IH | reflexivity].
Qed.

Lemma pool_loop_result (env : Env) (address : string) (l : list json) :
  forall max_entry m r m',
    DexScreenerClient.pool_loop env address l max_entry m = Ok (r, m') ->
    r = max_entry \/
    (In r l /\ DexScreenerClient.pool_matches env r address = Ok true).
Proof.
  induction l as [|x l IH]; intros max_entry m r m' H.
  - cbn in H. injection H as <- _. left. reflexivity.
  - cbn [DexScreenerClient.pool_loop] in H.
    unfold DexScreenerClient.pool_step in H.
    destruct (DexScreenerClient.pool_matches env x address) as [[|]|e] eqn:Hm;
      cbn [rbind] in H; [| |discriminate H].
    + destruct (DexScreenerClient.pool_liquidity_usd env x) as [f|e];
        cbn [rbind] in H; [|discriminate H].
      destruct (DexScreenerClient.float_gt f m); cbn [rbind fst snd] in H;
        apply IH in H; destruct H as [->|[Hin Hr]]; auto.
      * right. split; [left; reflexivity | exact Hm].
      * right. split; [right; exact Hin | exact Hr].
      * right. split; [right; exact Hin | exact Hr].
    + cbn [fst snd] in H. apply IH in H.
      destruct H as [->|[Hin Hr]]; auto.
      right. split; [right; exact Hin | exact Hr].
Qed.

(** X21: whatever the records are, a value that
    [find_largest_pool_with_sol] returns is either the empty dict or one of
    the given records, one that passes the base-token and quote-token
    filter: nothing is built or altered. *)
Theorem find_largest_pool_returns_a_given_pair (env : Env) (pairs : list json)
    (address : string) (r : json) :
  DexScreenerClient.find_largest_pool_with_sol env pairs address = Ok r ->
  r = JObj [] \/
  (In r pairs /\ DexScreenerClient.pool_matches env r address = Ok true).
Proof.
  unfold DexScreenerClient.find_largest_pool_with_sol. intros H.
  bind_inv H. injection H as <-. destruct a as [r m']. cbn [fst].
  apply (pool_loop_result env address pairs _ _ r m' Ha).
Qed.

Lemma find_largest_pool_returns_a_given_pair_witness :
  pair USDC WSOL (JInt 50) = JObj [] \/
  (In (pair USDC WSOL (JInt 50)) sample_pairs /\
   DexScreenerClient.pool_matches (sample_env (respond JNull))
     (pair USDC WSOL (JInt 50)) USDC = Ok true).
Proof.
  apply (find_largest_pool_returns_a_given_pair (sample_env (respond JNull))
           sample_pairs USDC).
  vm_compute. reflexivity.
Defined.

(** X22: the quote token is read with an index, and only after the base
    token matched.  A record without [quoteToken] whose base token is another
    address (or absent) is skipped; one whose base token is the address makes
    the filter, and the whole selection once the records before it were read,
    fail with [KeyError]. *)
Theorem find_largest_pool_missing_quote_token (env : Env) (address : string)
    (o : list (string * json)) :
  dict_get "quoteToken" o = None ->
  (dict_get "baseToken" o = None ->
   DexScreenerClient.pool_matches env (JObj o) address = Ok false) /\
  (forall b other, dict_get "baseToken" o = Some (JObj b) ->
     dict_get "address" b = Some (JStr other) -> other <> address ->
     DexScreenerClient.pool_matches env (JObj o) address = Ok false) /\
  (forall b, dict_get "baseToken" o = Some (JObj b) ->
     dict_get "address" b = Some (JStr address) ->
     DexScreenerClient.pool_matches env (JObj o) address = Raise (Builtin "KeyError") /\
     forall pre post, Forall (pair_readable env address) pre ->
       DexScreenerClient.find_largest_pool_with_sol env (pre ++ JObj o :: post) address
       = Raise (Builtin "KeyError")).
Proof.
  intros Hq. unfold DexScreenerClient.pool_matches, py_get. cbn [rbind].
  split; [|split].
  - intros ->. reflexivity.
  - intros b other -> Hb Hne. cbn [rbind]. rewrite Hb.
    unfold py_eq_str, is_JStr. apply String.eqb_neq in Hne. rewrite Hne. reflexivity.
  - intros b Hb Ha.
    assert (Hm : DexScreenerClient.pool_matches env (JObj o) address
                 = Raise (Builtin "KeyError")).
    { unfold DexScreenerClient.pool_matches, py_get. cbn [rbind].
      rewrite Hb. cbn [rbind]. rewrite Ha.
      unfold py_eq_str, is_JStr. rewrite String.eqb_refl.
      unfold py_getitem. rewrite Hq. reflexivity. }
    split; [exact Hm|].
    intros pre post Hpre.
    destruct (pool_loop_invariant env address pre Hpre [] (JObj [])
                DexScreenerClient.minus_one (pool_invariant_init env address))
      as [me [m [Hloop _]]].
    unfold DexScreenerClient.find_largest_pool_with_sol.
    rewrite pool_loop_app, Hloop. cbn [rbind fst snd DexScreenerClient.pool_loop].
    unfold DexScreenerClient.pool_step. rewrite Hm. reflexivity.
Qed.

Lemma find_largest_pool_missing_quote_token_witness :
  DexScreenerClient.find_largest_pool_with_sol (sample_env (respond JNull))
    [ pair USDC WSOL (JInt 10);
      JObj [("baseToken", JObj [("address", JStr USDC)])];
      pair USDC WSOL (JInt 50) ] USDC
  = Raise (Builtin "KeyError").
Proof.
  refine (proj2 (proj2 (proj2 (find_largest_pool_missing_quote_token
            (sample_env (respond JNull)) USDC
            [("baseToken", JObj [("address", JStr USDC)])] _))
            [("address", JStr USDC)] _ _)
            [pair USDC WSOL (JInt 10)] [pair USDC WSOL (JInt 50)] _).
  - reflexivity.
  - reflexivity.
  - reflexivity.
  - repeat constructor. exists true. split; [reflexivity|].
    intros _. eexists. reflexivity.
Defined.

Lemma pool_loop_filter (env : Env) (address : string) (pairs : list json) :
  Forall (fun e => exists m, DexScreenerClient.pool_matches env e address = Ok m) pairs ->
  forall max_entry m,
    DexScreenerClient.pool_loop env address pairs max_entry m =
    DexScreenerClient.pool_loop env address
      (filter (passes_filter env address) pairs) max_entry m.
Proof.
  induction 1 as [|e pairs [mt Hm] _ IH]; intros max_entry m; [reflexivity|].
  cbn [filter]. unfold passes_filter at 1. rewrite Hm.
  destruct mt.
  - cbn [DexScreenerClient.pool_loop].
    destruct (DexScreenerClient.pool_step env address e max_entry m) as [acc|err];
      cbn [rbind]; [apply IH | reflexivity].
  - cbn [DexScreenerClient.pool_loop]. unfold DexScreenerClient.pool_step.
    rewrite Hm. cbn [rbind fst snd]. apply IH.
Qed.

(** X23: records that fail the filter have no influence: on records whose
    filter evaluates, [find_largest_pool_with_sol] gives the same outcome on
    the whole sequence and on the subsequence of the records that pass the
    filter; the liquidity of the other records is never read. *)
Theorem find_largest_pool_ignores_filtered_out (env : Env) (pairs : list json)
    (address : string) :
  Forall (fun e => exists m, DexScreenerClient.pool_matches env e address = Ok m) pairs ->
  DexScreenerClient.find_largest_pool_with_sol env pairs address =
  DexScreenerClient.find_largest_pool_with_sol env
    (filter (passes_filter env address) pairs) address.
Proof.
  intros H. unfold DexScreenerClient.find_largest_pool_with_sol.
  rewrite (pool_loop_filter env address pairs H). reflexivity.
Qed.

Lemma find_largest_pool_ignores_filtered_out_witness :
  DexScreenerClient.find_largest_pool_with_sol (sample_env (respond JNull))
    [ pair USDC BONK (JStr "n/a"); pair USDC WSOL (JInt 10);
      pair BONK WSOL JNull ] USDC
  = DexScreenerClient.find_largest_pool_with_sol (sample_env (respond JNull))
      (filter (passes_filter (sample_env (respond JNull)) USDC)
         [ pair USDC BONK (JStr "n/a"); pair USDC WSOL (JInt 10);
           pair BONK WSOL JNull ]) USDC.
Proof.
  apply (find_largest_pool_ignores_filtered_out (sample_env (respond JNull))
           [ pair USDC BONK (JStr "n/a"); pair USDC WSOL (JInt 10);
             pair BONK WSOL JNull ] USDC).
  repeat constructor; eexists; reflexivity.
Defined.

(* ================================================================== *)
(** ** Conversion failures and the remaining exception sets *)

Lemma bird_loop_app (env : Env) (pre rest : list (string * json)) :
  forall prices invalid,
    BirdEyeClient.fetch_prices_loop env (pre ++ rest) prices invalid =
    (acc <- BirdEyeClient.fetch_prices_loop env pre prices invalid ;;
     BirdEyeClient.fetch_prices_loop env rest (fst acc) (snd acc))%py.
Proof.
  induction pre as [|[a td] pre IH]; intros prices invalid; [reflexivity|].
  cbn [app BirdEyeClient.fetch_prices_loop].
  destruct (BirdEyeClient.fetch_prices_entry env a td prices invalid) as [acc|e];
    cbn [rbind]; [apply IH | reflexivity].
Qed.

Lemma bird_loop_wire_returns (env : Env) (pre : list (string * json)) :
  Forall (wire_entry env) (map snd pre) ->
  forall prices invalid, exists acc,
    BirdEyeClient.fetch_prices_loop env pre prices invalid = Ok acc.
Proof.
  induction pre as [|[a td] pre IH]; intros Hw prices invalid.
  - eexists. reflexivity.
  - cbn [map snd] in Hw. inversion Hw as [|? ? Hw1 Hw2]; subst.
    cbn [BirdEyeClient.fetch_prices_loop].
    destruct (bird_entry_wire env a td prices invalid Hw1) as [-> _].
    destruct (entry_price_info env td); cbn [rbind]; apply IH; exact Hw2.
Qed.

(** X24: in [fetch_prices] a conversion failure wins over the report of
    invalid tokens: when the entries before it are of the wire shape, an entry
    that has both fields but whose [value] the [Decimal] constructor refuses
    makes the call fail with the constructor's error, whatever the other
    entries lack; the offending addresses collected so far are not reported. *)
Theorem bird_fetch_prices_conversion_failure (env : Env) (l : list string)
    (log : list Request) (data : json) (pre post : list (string * json))
    (a : string) (o : list (string * json)) (v liq : json) (e : exn) :
  l <> [] ->
  status_code (http env (birdeye_request (BirdEyeClient.prices_url l))) = 200 ->
  body (http env (birdeye_request (BirdEyeClient.prices_url l))) = Some data ->
  py_getitem data "data" = Ok (JObj (pre ++ (a, JObj o) :: post)) ->
  Forall (wire_entry env) (map snd pre) ->
  dict_get "value" o = Some v -> dict_get "liquidity" o = Some liq ->
  py_Decimal env v = Raise e ->
  fst (BirdEyeClient.fetch_prices env l log) = Raise e.
Proof.
  intros Hne Hs Hb Hd Hw Hv Hl He.
  rewrite bird_fetch_prices_run by exact Hne. cbv zeta. cbn [fst].
  rewrite Hs. cbn [Z.eqb Pos.eqb].
  unfold BirdEyeClient.prices_of_response, Response_json.
  rewrite Hb. cbn [opt_or_raise rbind]. rewrite Hd. cbn [rbind py_items].
  rewrite bird_loop_app.
  destruct (bird_loop_wire_returns env pre Hw [] []) as [acc ->].
  cbn [rbind BirdEyeClient.fetch_prices_loop].
  unfold BirdEyeClient.fetch_prices_entry.
  rewrite has_price_fields_obj, Hv, Hl. cbn [rbind py_getitem].
  rewrite Hv. cbn [rbind]. rewrite He. reflexivity.
Qed.

Lemma bird_fetch_prices_conversion_failure_witness :
  fst (BirdEyeClient.fetch_prices
         (sample_env (respond (JObj [("data",
            JObj [ (BONK, JObj [("value", JInt 7)]);
                   (USDC, JObj [("value", JNull); ("liquidity", JInt 5)]) ])])))
         [BONK; USDC] [])
  = Raise (Builtin "TypeError").
Proof.
  apply (bird_fetch_prices_conversion_failure
           (sample_env (respond (JObj [("data",
              JObj [ (BONK, JObj [("value", JInt 7)]);
                     (USDC, JObj [("value", JNull); ("liquidity", JInt 5)]) ])])))
           [BONK; USDC] []
           (JObj [("data",
              JObj [ (BONK, JObj [("value", JInt 7)]);
                     (USDC, JObj [("value", JNull); ("liquidity", JInt 5)]) ])])
           [(BONK, JObj [("value", JInt 7)])] [] USDC
           [("value", JNull); ("liquidity", JInt 5)] JNull (JInt 5)
           (Builtin "TypeError"));
    try reflexivity.
  - discriminate.
  - repeat constructor. eexists. split; [reflexivity|].
    cbn. intros v l Hv Hl. discriminate Hl.
Defined.

(** X25: whatever the input and the server, DexScreener's
    [fetch_token_overview] raises nothing but [InvalidSolanaAddress] for its
    address (exactly when the parser rejects it), [InvalidTokens()] or an
    error of the interpreter. *)
Theorem dex_overview_raises (env : Env) (address : string) (log : list Request)
    (e : exn) :
  fst (DexScreenerClient.fetch_token_overview env address log) = Raise e ->
  (e = InvalidSolanaAddress address /\ pubkey_parses env address = false) \/
  (pubkey_parses env address = true /\ (e = InvalidTokens NoArg \/ library_error e)).
Proof.
  rewrite dex_fetch_token_overview_run.
  destruct (pubkey_parses env address).
  - cbv zeta. cbn [fst]. intros H. right. split; [reflexivity|].
    revert e H.
    change (raises_only (fun e => e = InvalidTokens NoArg \/ library_error e)
              (_ <- DexScreenerClient._validate_response
                      (http env (dex_request address)) ;;
               data <- Response_json (http env (dex_request address)) ;;
               DexScreenerClient.overview_of_payload env data)%py).
    apply raises_only_bind.
    + unfold DexScreenerClient._validate_response.
      destruct (negb _); [apply raises_only_Raise; auto | apply raises_only_Ok].
    + intros _. eapply raises_only_weaken; [intros e He; right; exact He|].
      apply raises_only_bind; [auto with raises|].
      intros data. apply dex_overview_of_payload_library.
  - cbn [fst]. intros H. injection H as <-. left. split; reflexivity.
Qed.

Lemma dex_overview_raises_witness :
  (InvalidTokens NoArg = InvalidSolanaAddress USDC /\
   pubkey_parses (sample_env (fun _ => {| status_code := 404; body := None |})) USDC
   = false) \/
  (pubkey_parses (sample_env (fun _ => {| status_code := 404; body := None |})) USDC
   = true /\
   (InvalidTokens NoArg = InvalidTokens NoArg \/ library_error (InvalidTokens NoArg))).
Proof.
  apply (dex_overview_raises
           (sample_env (fun _ => {| status_code := 404; body := None |})) USDC []).
  reflexivity.
Defined.

(* ================================================================== *)
(** ** The price loop of DexScreener, from end to end *)

(** The loop either goes through the whole list, or stops at the first
    address that the parser rejects or whose answer cannot be used. *)
Lemma dex_loop_outcome (env : Env) (l : list string) :
  forall prices log,
    (Forall (dex_entry_ok env) l /\
     exists prices',
       DexScreenerClient.fetch_prices_dex_loop env l prices log =
       (Ok prices', (log ++ map dex_request l)%list)) \/
    (exists pre a post e,
       l = (pre ++ a :: post)%list /\ Forall (dex_entry_ok env) pre /\
       ((pubkey_parses env a = false /\ e = InvalidSolanaAddress a /\
         DexScreenerClient.fetch_prices_dex_loop env l prices log =
         (Raise e, (log ++ map dex_request pre)%list)) \/
        (pubkey_parses env a = true /\ dex_answer env a = Raise e /\
         DexScreenerClient.fetch_prices_dex_loop env l prices log =
         (Raise e, (log ++ map dex_request pre ++ [dex_request a])%list)))).
Proof.
  induction l as [|x l IH]; intros prices log.
  - left. split; [constructor|]. exists prices. cbn. rewrite app_nil_r. reflexivity.
  - cbn [DexScreenerClient.fetch_prices_dex_loop]. unfold nbind.
    rewrite dex_entry_run.
    destruct (pubkey_parses env x) eqn:Hx.
    + destruct (dex_answer env x) as [info|e] eqn:Hans.
      * destruct (IH (dict_set x info prices) (log ++ [dex_request x])%list)
          as [[Hall [prices' Hrun]]|[pre [a [post [e [Hl [Hpre Hcase]]]]]]].
        -- left. split.
           ++ constructor; [|exact Hall]. split; [exact Hx|]. exists info. exact Hans.
           ++ exists prices'. rewrite Hrun. cbn [map].
              rewrite app_singleton_assoc. reflexivity.
        -- right. exists (x :: pre), a, post, e.
           split; [rewrite Hl; reflexivity|].
           split; [constructor; [|exact Hpre]; split; [exact Hx|];
                   exists info; exact Hans|].
           cbn [map]. rewrite !app_singleton_assoc in Hcase.
           destruct Hcase as [[Ha [He Hrun]]|[Ha [He Hrun]]].
           ++ left. repeat split; assumption.
           ++ right. repeat split; assumption.
      * right. exists [], x, l, e. split; [reflexivity|]. split; [constructor|].
        right. repeat split; assumption || reflexivity.
    + right. exists [], x, l, (InvalidSolanaAddress x).
      split; [reflexivity|]. split; [constructor|].
      left. cbn. rewrite app_nil_r. repeat split. exact Hx.
Qed.

(** X17: [fetch_prices_dex] sends its requests up to the first failure and
    nothing after it.  Either the list is empty and nothing is sent; or every
    address goes through, one request each in list order, and a mapping is
    returned; or the list splits at its first failing address [a]: the
    addresses before it went through and were requested in order, and then
    either the parser rejects [a], [InvalidSolanaAddress a] is raised and no
    request is sent for [a] or any later address, or [a] is requested, its
    answer cannot be used, its error is raised and no later address is
    requested. *)
Theorem fetch_prices_dex_stops_at_first_failure (env : Env) (l : list string)
    (log : list Request) :
  (l = [] /\
   DexScreenerClient.fetch_prices_dex env l log = (Raise NoPositionsError, log)) \/
  (Forall (dex_entry_ok env) l /\
   exists prices,
     DexScreenerClient.fetch_prices_dex env l log =
     (Ok prices, (log ++ map dex_request l)%list)) \/
  (exists pre a post e,
     l = (pre ++ a :: post)%list /\ Forall (dex_entry_ok env) pre /\
     ((pubkey_parses env a = false /\ e = InvalidSolanaAddress a /\
       DexScreenerClient.fetch_prices_dex env l log =
       (Raise e, (log ++ map dex_request pre)%list)) \/
      (pubkey_parses env a = true /\ dex_answer env a = Raise e /\
       DexScreenerClient.fetch_prices_dex env l log =
       (Raise e, (log ++ map dex_request pre ++ [dex_request a])%list)))).
Proof.
  destruct l as [|x l'].
  - left. split; reflexivity.
  - right. rewrite dex_fetch_prices_nonempty by discriminate.
    apply dex_loop_outcome.
Qed.

(** X20: on one and the same payload the two DexScreener methods read price
    and liquidity alike: whenever the construction of the overview goes
    through on a payload, so does the construction of the [PriceInfo], and it
    holds the overview's price and liquidity. *)
Theorem dex_price_info_agrees_with_overview (env : Env) (data : json)
    (ov : TokenOverview.t) :
  DexScreenerClient.overview_of_payload env data = Ok ov ->
  DexScreenerClient.price_info_of_payload env data
  = Ok (PriceInfo.make (TokenOverview.price ov) (TokenOverview.liquidity ov)).
Proof.
  intros H. unfold DexScreenerClient.overview_of_payload in H. bind_inv H.
  injection H as <-. cbn [TokenOverview.price TokenOverview.liquidity].
  unfold DexScreenerClient.price_info_of_payload.
  repeat match goal with
         | E : ?m = Ok _ |- context [rbind ?m _] => rewrite E; cbn [rbind]
         end.
  reflexivity.
Qed.

Lemma dex_price_info_agrees_with_overview_witness :
  DexScreenerClient.price_info_of_payload (sample_env (respond JNull))
    (JObj [("price", JInt 3); ("decimals", JInt 6)])
  = Ok (PriceInfo.make (Decimal_of_int 3) (Decimal_of_int 0)).
Proof.
  apply (dex_price_info_agrees_with_overview (sample_env (respond JNull))
           (JObj [("price", JInt 3); ("decimals", JInt 6)])
           (TokenOverview.make (Decimal_of_int 3) (JStr "") 6 0
              (Decimal_of_int 0) (Decimal_of_int 0))).
  reflexivity.
Defined.

(* ================================================================== *)
(** ** A missing price or liquidity field: the two providers differ *)

Lemma dex_answer_defaults (env : Env) (a : string) (o : list (string * json))
    (info : PriceInfo.t) :
  body (http env (dex_request a)) = Some (JObj o) ->
  dex_answer env a = Ok info ->
  (dict_get "price" o = None -> PriceInfo.price info = Decimal_of_int 0) /\
  (dict_get "liquidity" o = None -> PriceInfo.liquidity info = Decimal_of_int 0).
Proof.
  intros Hb. unfold dex_answer, DexScreenerClient._validate_response, Response_json.
  cbv zeta. rewrite Hb.
  destruct (negb _); cbn [rbind opt_or_raise]; [discriminate|].
  rewrite dex_price_info_obj. unfold field_or.
  destruct (py_Decimal env match dict_get "price" o with
                           | Some v => v
                           | None => JInt 0
                           end) as [p|e] eqn:Hp; cbn [rbind]; [|discriminate].
  destruct (py_Decimal env match dict_get "liquidity" o with
                           | Some v => v
                           | None => JInt 0
                           end) as [q|e] eqn:Hq; cbn [rbind]; [|discriminate].
  intros H. injection H as <-. cbn [PriceInfo.price PriceInfo.liquidity].
  split; intros Hn.
  - rewrite Hn in Hp. cbn in Hp. injection Hp as <-. reflexivity.
  - rewrite Hn in Hq. cbn in Hq. injection Hq as <-. reflexivity.
Qed.

(** C2: the invariant holds of BirdEye's [fetch_prices] and is broken by
    [fetch_prices_dex].  BirdEye: when an entry of a 200 batch lacks [value]
    or [liquidity], no mapping is returned, whatever the other entries are.
    DexScreener: when every address of the list goes through and the payload
    of one of them lacks [price] or [liquidity], a mapping is returned all
    the same, in which that address has a [PriceInfo] whose absent field
    reads as the integer zero; nothing is marked invalid. *)
Theorem missing_field_divergence (env : Env) (log : list Request) :
  (forall token_addresses data entries a o,
     token_addresses <> [] ->
     status_code (http env (birdeye_request (BirdEyeClient.prices_url token_addresses)))
     = 200 ->
     body (http env (birdeye_request (BirdEyeClient.prices_url token_addresses)))
     = Some data ->
     py_getitem data "data" = Ok (JObj entries) ->
     In (a, JObj o) entries ->
     dict_get "value" o = None \/ dict_get "liquidity" o = None ->
     forall prices,
       fst (BirdEyeClient.fetch_prices env token_addresses log) <> Ok prices) /\
  (forall l a o,
     Forall (dex_entry_ok env) l -> In a l ->
     body (http env (dex_request a)) = Some (JObj o) ->
     dict_get "price" o = None \/ dict_get "liquidity" o = None ->
     exists prices info,
       DexScreenerClient.fetch_prices_dex env l log =
       (Ok prices, (log ++ map dex_request l)%list) /\
       dict_get a prices = Some info /\
       (dict_get "price" o = None -> PriceInfo.price info = Decimal_of_int 0) /\
       (dict_get "liquidity" o = None ->
        PriceInfo.liquidity info = Decimal_of_int 0)).
Proof.
  split.
  - intros token_addresses data entries a o Hne Hs Hb Hd Hin Hmiss prices.
    assert (Hoff : In a (offenders entries)).
    { apply (in_offenders entries a (JObj o) Hin). apply offending_obj, Hmiss. }
    rewrite bird_fetch_prices_run by exact Hne. cbv zeta. cbn [fst].
    rewrite Hs. cbn [Z.eqb Pos.eqb].
    unfold BirdEyeClient.prices_of_response, Response_json.
    rewrite Hb. cbn [opt_or_raise rbind]. rewrite Hd. cbn [rbind py_items].
    destruct (BirdEyeClient.fetch_prices_loop env entries [] [])
      as [[prices' invalid']|e] eqn:Hloop; [|discriminate].
    apply bird_loop_collects in Hloop. cbn [app] in Hloop. subst invalid'.
    cbn [rbind fst snd].
    destruct (offenders entries); [destruct Hoff | discriminate].
  - intros l a o Hall Hin Hb Hmiss.
    assert (Hne : l <> []) by (destruct l; [destruct Hin | discriminate]).
    rewrite dex_fetch_prices_nonempty by exact Hne.
    destruct (dex_loop_success env l Hall [] log [])
      as [prices [Hrun [Hnd [Hkeys Hget]]]].
    + constructor.
    + intros x. cbn. tauto.
    + intros x info H. discriminate H.
    + apply Hkeys in Hin. destruct (dict_get_of_key a prices Hin) as [info Hinfo].
      exists prices, info. split; [exact Hrun|]. split; [exact Hinfo|].
      apply (dex_answer_defaults env a o info Hb). apply Hget, Hinfo.
Qed.

Lemma missing_field_divergence_witness :
  exists prices info,
    DexScreenerClient.fetch_prices_dex
      (sample_env (respond (JObj [("price", JInt 3)]))) [USDC] [] =
    (Ok prices, [dex_request USDC]) /\
    dict_get USDC prices = Some info /\
    (dict_get "price" [("price", JInt 3)] = None ->
     PriceInfo.price info = Decimal_of_int 0) /\
    (dict_get "liquidity" [("price", JInt 3)] = None ->
     PriceInfo.liquidity info = Decimal_of_int 0).
Proof.
  apply (proj2 (missing_field_divergence
                  (sample_env (respond (JObj [("price", JInt 3)]))) [])
           [USDC] USDC [("price", JInt 3)]).
  - repeat constructor. eexists. reflexivity.
  - left. reflexivity.
  - reflexivity.
  - right. reflexivity.
Defined.

(** The failing input of C2, evaluated: the payload has a [price] and no
    [liquidity], and the address gets a [PriceInfo] with liquidity zero. *)
Example fetch_prices_dex_missing_liquidity_example :
  DexScreenerClient.fetch_prices_dex
    (sample_env (respond (JObj [("price", JInt 3)]))) [USDC] []
  = (Ok [(USDC, PriceInfo.make (Decimal_of_int 3) (Decimal_of_int 0))],
     [dex_request USDC]).
Proof. reflexivity. Qed.
